(** * WeatherMCP: the two weather tools of [weather.py]

    A shallow embedding of [src/weather.py] (the tools [get_alerts] and
    [get_forecast], with [format_alert] and the two fetch helpers) and the
    properties of its specification.

    - JSON bodies are the values [json.loads] builds: [None], [bool], [int],
      [float], [str], [list], [dict].  Floating-point numbers are IEEE
      binary64, as in CPython.
    - A Python exception is a value [Raise e] of the result type.
    - The process environment (the API key), the remote servers and the
      requests made so far form an explicit [world] that the tools thread.
    - Built-ins of the Python runtime that the file calls but does not
      define ([repr] of [float] and [str], [str.title],
      [datetime.fromtimestamp], [datetime.strftime]) are the fields of the
      class [PyRuntime]. *)

From Stdlib Require Import ZArith List String Ascii Bool Lia.
From Stdlib Require Import Floats DecimalString.
Import ListNotations.
Local Open Scope string_scope.
Local Open Scope Z_scope.
#[local] Set Warnings "-register-all,-inexact-float".

(** ** Exceptions and results *)

Inductive exn : Type :=
| KeyError
| IndexError
| TypeError
| AttributeError
| ValueError
| OverflowError
| OSError
| HTTPError.

Inductive result (A : Type) : Type :=
| Ok (a : A)
| Raise (e : exn).

Arguments Ok {A} a.
Arguments Raise {A} e.

Definition bind {A B : Type} (r : result A) (k : A -> result B) : result B :=
  match r with
  | Ok a => k a
  | Raise e => Raise e
  end.

Notation "x <- r ;; k" := (bind r (fun x => k))
  (at level 61, r at next level, right associativity).

Fixpoint mapM {A B : Type} (f : A -> result B) (l : list A) : result (list B) :=
  match l with
  | [] => Ok []
  | a :: l' => b <- f a ;; bs <- mapM f l' ;; Ok (b :: bs)
  end.

(** ** JSON values *)

(** A [dict] is kept as the list of its items; [json.loads] builds it with
    distinct keys, and [dict_get] reads the first item of a key. *)
Inductive json : Type :=
| JNull
| JBool (b : bool)
| JInt (n : Z)
| JFloat (f : float)
| JStr (s : string)
| JArr (l : list json)
| JObj (kv : list (string * json)).

Fixpoint dict_get (k : string) (kv : list (string * json)) : option json :=
  match kv with
  | [] => None
  | (k', v) :: kv' => if String.eqb k k' then Some v else dict_get k kv'
  end.

(** [bool(v)]: what [not v] and [if v] test. *)
Definition truthy (v : json) : bool :=
  match v with
  | JNull => false
  | JBool b => b
  | JInt n => negb (n =? 0)
  | JFloat f => negb (PrimFloat.eqb f 0%float)
  | JStr s => negb (String.eqb s "")
  | JArr l => match l with [] => false | _ => true end
  | JObj kv => match kv with [] => false | _ => true end
  end.

(** [v == s] for a string literal [s]. *)
Definition eq_str (v : json) (s : string) : bool :=
  match v with
  | JStr s' => String.eqb s' s
  | _ => false
  end.

(** [k in v] for a string literal [k]: key of a dict, element of a list,
    substring of a string; the other values are not iterable. *)
Definition contains (k : string) (v : json) : result bool :=
  match v with
  | JObj kv => Ok (match dict_get k kv with Some _ => true | None => false end)
  | JArr l => Ok (existsb (fun x => eq_str x k) l)
  | JStr s => Ok (match String.index 0 k s with Some _ => true | None => false end)
  | _ => Raise TypeError
  end.

(** [v[k]] for a string literal [k]. *)
Definition subscript (v : json) (k : string) : result json :=
  match v with
  | JObj kv => match dict_get k kv with Some x => Ok x | None => Raise KeyError end
  | _ => Raise TypeError
  end.

(** [v[0]]. *)
Definition subscript0 (v : json) : result json :=
  match v with
  | JArr l => match l with x :: _ => Ok x | [] => Raise IndexError end
  | JStr s => match s with
              | String c _ => Ok (JStr (String c ""))
              | EmptyString => Raise IndexError
              end
  | JObj _ => Raise KeyError
  | _ => Raise TypeError
  end.

(** [v.get(k, d)]: only a dict has the method. *)
Definition get (v : json) (k : string) (d : json) : result json :=
  match v with
  | JObj kv => Ok (match dict_get k kv with Some x => x | None => d end)
  | _ => Raise AttributeError
  end.

(** The values a [for] loop visits: the elements of a list, the keys of a
    dict, the characters of a string. *)
Definition iterate (v : json) : result (list json) :=
  match v with
  | JArr l => Ok l
  | JObj kv => Ok (map (fun p => JStr (fst p)) kv)
  | JStr s => Ok (map (fun c => JStr (String c "")) (list_ascii_of_string s))
  | _ => Raise TypeError
  end.

(** [v[:5]]: a list or a string is sliced; a dict has no slice key. *)
Definition slice5 (v : json) : result json :=
  match v with
  | JArr l => Ok (JArr (firstn 5 l))
  | JStr s => Ok (JStr (string_of_list_ascii (firstn 5 (list_ascii_of_string s))))
  | _ => Raise TypeError
  end.

(** ** Floating-point arithmetic of the wind direction *)

(** [float(n)] for an [int]: correctly rounded, [OverflowError] when the
    integer is beyond the range of a double. *)
Definition float_of_int (n : Z) : result float :=
  let f := SF2Prim (binary_normalize prec emax n 0 false) in
  if is_infinity f then Raise OverflowError else Ok f.

(** [int(f)]: truncation toward zero. *)
Definition int_of_float (f : float) : result Z :=
  match Prim2SF f with
  | S754_zero _ => Ok 0
  | S754_infinity _ => Raise OverflowError
  | S754_nan => Raise ValueError
  | S754_finite s m e =>
      let a := match e with
               | Zneg p => Z.shiftr (Zpos m) (Zpos p)
               | _ => Z.shiftl (Zpos m) e
               end in
      Ok (if s then - a else a)
  end.

(** [v + 11.25]: [int] and [bool] operands are converted to [float]. *)
Definition add_float (v : json) (c : float) : result float :=
  match v with
  | JInt n => f <- float_of_int n ;; Ok (f + c)%float
  | JBool b => Ok ((if b then 1 else 0) + c)%float
  | JFloat f => Ok (f + c)%float
  | _ => Raise TypeError
  end.

Definition directions : list string :=
  ["N"; "NNE"; "NE"; "ENE"; "E"; "ESE"; "SE"; "SSE";
   "S"; "SSW"; "SW"; "WSW"; "W"; "WNW"; "NW"; "NNW"].

(** [directions[int((wind_deg + 11.25) / 22.5) % 16] if wind_deg else "N/A"] *)
Definition wind_direction (wind_deg : json) : result string :=
  if truthy wind_deg then
    x <- add_float wind_deg 11.25%float ;;
    i <- int_of_float (x / 22.5)%float ;;
    Ok (nth (Z.to_nat (i mod 16)) directions "")
  else Ok "N/A".

(** ** Built-ins of the Python runtime *)

(** What [weather.py] calls and the standard library defines.  The local
    time zone of the process is part of [fromtimestamp]. *)
Class PyRuntime : Type := {
  (** [repr(f)] of a [float], which is also [str(f)] *)
  float_repr : float -> string;
  (** [repr(s)] of a [str]: quoted and escaped *)
  str_repr : string -> string;
  (** [s.title()] *)
  str_title : string -> string;
  datetime : Type;
  (** [datetime.fromtimestamp(n)] for an [int], in the local zone *)
  fromtimestamp_int : Z -> result datetime;
  (** [datetime.fromtimestamp(f)] for a [float], in the local zone *)
  fromtimestamp_float : float -> result datetime;
  (** [dt.strftime(fmt)] *)
  strftime : datetime -> string -> string
}.

Definition nl : string := String (ascii_of_nat 10) "".

(** [str(n)] of an [int]. *)
Definition str_of_int (n : Z) : string := NilZero.string_of_int (Z.to_int n).

(** ** The world: environment, servers, requests sent *)

Record request : Type := {
  req_url : string;
  req_headers : list (string * string)
}.

Record world : Type := {
  (** [os.getenv("OPENWEATHER_API_KEY")] *)
  env_api_key : option string;
  (** [client.get], [raise_for_status] and [response.json()] for a request,
      given the requests already sent: the decoded body, or an exception *)
  http_get_json : list request -> request -> result json;
  (** the requests sent so far, latest first *)
  sent : list request
}.

Definition send (r : request) (w : world) : result json * world :=
  (http_get_json w (sent w) r,
   {| env_api_key := env_api_key w;
      http_get_json := http_get_json w;
      sent := r :: sent w |}).

(** ** Constants *)

Definition NWS_API_BASE : string := "https://api.weather.gov".
Definition OPENWEATHER_API_BASE : string := "https://api.openweathermap.org/data/2.5".
Definition USER_AGENT : string := "weather-app/1.0".

Definition get_openweather_api_key (w : world) : option string := env_api_key w.

(** ** The fetch layer *)

Definition nws_request (url : string) : request :=
  {| req_url := url;
     req_headers := [("User-Agent", USER_AGENT); ("Accept", "application/geo+json")] |}.

Definition openweather_request (url : string) : request :=
  {| req_url := url; req_headers := [] |}.

(** Both helpers return the decoded body, and [None] (here [JNull]) on any
    exception. *)
Definition make_nws_request (url : string) (w : world) : json * world :=
  let '(r, w') := send (nws_request url) w in
  (match r with Ok body => body | Raise _ => JNull end, w').

Definition make_openweather_request (url : string) (w : world) : json * world :=
  let '(r, w') := send (openweather_request url) w in
  (match r with Ok body => body | Raise _ => JNull end, w').

Section Tools.
Context {rt : PyRuntime}.

(** [repr(v)]. *)
Fixpoint repr (v : json) : string :=
  match v with
  | JNull => "None"
  | JBool b => if b then "True" else "False"
  | JInt n => str_of_int n
  | JFloat f => float_repr f
  | JStr s => str_repr s
  | JArr l => "[" ++ String.concat ", " (map repr l) ++ "]"
  | JObj kv =>
      "{" ++ String.concat ", "
               (map (fun p => let '(k, x) := p in str_repr k ++ ": " ++ repr x) kv)
          ++ "}"
  end.

(** [str(v)], which is what [{v}] in an f-string renders. *)
Definition str (v : json) : string :=
  match v with
  | JStr s => s
  | _ => repr v
  end.

(** [v.title()]: only a string has the method. *)
Definition title (v : json) : result string :=
  match v with
  | JStr s => Ok (str_title s)
  | _ => Raise AttributeError
  end.

(** [datetime.fromtimestamp(v)]: a [bool] is an [int]; other values are no
    timestamps. *)
Definition fromtimestamp (v : json) : result datetime :=
  match v with
  | JInt n => fromtimestamp_int n
  | JBool b => fromtimestamp_int (if b then 1 else 0)
  | JFloat f => fromtimestamp_float f
  | _ => Raise TypeError
  end.

(** ** Alerts *)

(** The f-string of [format_alert]. *)
Definition alert_text (event areaDesc severity description instruction : json) : string :=
  nl ++ "Event: " ++ str event ++ nl
     ++ "Area: " ++ str areaDesc ++ nl
     ++ "Severity: " ++ str severity ++ nl
     ++ "Description: " ++ str description ++ nl
     ++ "Instructions: " ++ str instruction ++ nl.

Definition format_alert (feature : json) : result string :=
  props <- subscript feature "properties" ;;
  event <- get props "event" (JStr "Unknown") ;;
  areaDesc <- get props "areaDesc" (JStr "Unknown") ;;
  severity <- get props "severity" (JStr "Unknown") ;;
  description <- get props "description" (JStr "No description available") ;;
  instruction <- get props "instruction" (JStr "No specific instructions provided") ;;
  Ok (alert_text event areaDesc severity description instruction).

Definition alerts_url (state : string) : string :=
  NWS_API_BASE ++ "/alerts/active/area/" ++ state.

(** The body of [get_alerts] after the fetch. *)
Definition alerts_of (data : json) : result string :=
  if negb (truthy data) then Ok "Unable to fetch alerts or no alerts found." else
  has_features <- contains "features" data ;;
  if negb has_features then Ok "Unable to fetch alerts or no alerts found." else
  features <- subscript data "features" ;;
  if negb (truthy features) then Ok "No active alerts for this state." else
  features <- subscript data "features" ;;
  items <- iterate features ;;
  alerts <- mapM format_alert items ;;
  Ok (String.concat (nl ++ "---" ++ nl) alerts).

Definition get_alerts (state : string) (w : world) : result string * world :=
  let url := alerts_url state in
  let '(data, w') := make_nws_request url w in
  (alerts_of data, w').

(** ** Forecast *)

(** The values one pass of the loop reads from a period, in the order the
    loop reads them. *)
Record reading : Type := {
  r_dt : datetime;
  r_temp : json;
  r_feels_like : json;
  r_humidity : json;
  r_weather_desc : string;
  r_wind_speed : json;
  r_wind_deg : json
}.

Definition read_period (period : json) : result reading :=
  ts <- subscript period "dt" ;;
  dt <- fromtimestamp ts ;;
  main <- subscript period "main" ;;
  temp <- subscript main "temp" ;;
  main <- subscript period "main" ;;
  feels_like <- subscript main "feels_like" ;;
  main <- subscript period "main" ;;
  humidity <- subscript main "humidity" ;;
  weather <- subscript period "weather" ;;
  weather0 <- subscript0 weather ;;
  description <- subscript weather0 "description" ;;
  weather_desc <- title description ;;
  wind <- get period "wind" (JObj []) ;;
  wind_speed <- get wind "speed" (JInt 0) ;;
  wind <- get period "wind" (JObj []) ;;
  wind_deg <- get wind "deg" (JInt 0) ;;
  Ok {| r_dt := dt; r_temp := temp; r_feels_like := feels_like;
        r_humidity := humidity; r_weather_desc := weather_desc;
        r_wind_speed := wind_speed; r_wind_deg := wind_deg |}.

(** The degree sign followed by C, in UTF-8. *)
Definition degree_C : string :=
  String (ascii_of_nat 194) (String (ascii_of_nat 176) "C").

(** The f-string of the loop. *)
Definition forecast_text (r : reading) (direction : string) : string :=
  nl ++ strftime (r_dt r) "%A, %B %d at %I:%M %p" ++ ":" ++ nl
     ++ "Temperature: " ++ str (r_temp r) ++ degree_C
     ++ " (feels like " ++ str (r_feels_like r) ++ degree_C ++ ")" ++ nl
     ++ "Weather: " ++ r_weather_desc r ++ nl
     ++ "Humidity: " ++ str (r_humidity r) ++ "%" ++ nl
     ++ "Wind: " ++ str (r_wind_speed r) ++ " m/s " ++ direction ++ nl.

(** The body of the loop over [periods[:5]]. *)
Definition format_period (period : json) : result string :=
  r <- read_period period ;;
  direction <- wind_direction (r_wind_deg r) ;;
  Ok (forecast_text r direction).

Definition forecast_url (latitude longitude : float) (api_key : string) : string :=
  OPENWEATHER_API_BASE ++ "/forecast?lat=" ++ float_repr latitude
    ++ "&lon=" ++ float_repr longitude
    ++ "&appid=" ++ api_key ++ "&units=metric".

(** ["=" * 50] *)
Definition rule50 : string := string_of_list_ascii (repeat "="%char 50).

(** The body of [get_forecast] after the fetch. *)
Definition forecast_of (forecast_data : json) : result string :=
  if negb (truthy forecast_data) then
    Ok "Unable to fetch forecast data for this location."
  else
  has_cod <- contains "cod" forecast_data ;;
  failed <- (if has_cod
             then cod <- subscript forecast_data "cod" ;; Ok (negb (eq_str cod "200"))
             else Ok false) ;;
  if failed then
    error_msg <- get forecast_data "message" (JStr "Unknown error") ;;
    Ok ("Unable to fetch forecast: " ++ str error_msg)
  else
  city <- get forecast_data "city" (JObj []) ;;
  city_name <- get city "name" (JStr "Unknown") ;;
  city <- get forecast_data "city" (JObj []) ;;
  country <- get city "country" (JStr "") ;;
  let location_info := "Forecast for " ++ str city_name in
  let location_info :=
    if truthy country then location_info ++ ", " ++ str country else location_info in
  periods <- get forecast_data "list" (JArr []) ;;
  if negb (truthy periods) then Ok "No forecast data available." else
  first5 <- slice5 periods ;;
  items <- iterate first5 ;;
  forecasts <- mapM format_period items ;;
  Ok (String.concat nl (location_info :: rule50 :: forecasts)).

Definition get_forecast (latitude longitude : float) (w : world) : result string * world :=
  match get_openweather_api_key w with
  | None =>
      (Ok "Error: OPENWEATHER_API_KEY not found in .env file. Please add it to your .env file.", w)
  | Some api_key =>
      if String.eqb api_key "" then
        (Ok "Error: OPENWEATHER_API_KEY not found in .env file. Please add it to your .env file.", w)
      else
      let '(forecast_data, w') :=
        make_openweather_request (forecast_url latitude longitude api_key) w in
      (forecast_of forecast_data, w')
  end.

End Tools.

(** ** A reference runtime

    The built-ins as CPython 3.11 computes them on Linux with [TZ=UTC] and
    the C locale, for strings of ASCII characters (a byte above 127 is
    copied as it is).  The model runs on it; the theorems hold for every
    runtime. *)
Module Ref.

Definition ord (c : ascii) : Z := Z.of_N (N_of_ascii c).
Definition chr (n : Z) : ascii := ascii_of_N (Z.to_N n).

(** *** [str.title] *)

Fixpoint title_from (previous_is_cased : bool) (s : string) : string :=
  match s with
  | EmptyString => EmptyString
  | String c s' =>
      let o := ord c in
      let lower := (97 <=? o) && (o <=? 122) in
      let upper := (65 <=? o) && (o <=? 90) in
      let c' := if previous_is_cased
                then (if upper then chr (o + 32) else c)
                else (if lower then chr (o - 32) else c) in
      String c' (title_from (lower || upper) s')
  end.

Definition str_title (s : string) : string := title_from false s.

(** *** [repr] of a string *)

Definition quote1 : ascii := chr 39.
Definition quote2 : ascii := chr 34.
Definition backslash : ascii := chr 92.

Definition hex_digit (n : Z) : ascii := chr (if n <? 10 then 48 + n else 87 + n).

Definition escape (quote : ascii) (c : ascii) : string :=
  let o := ord c in
  if Ascii.eqb c quote || Ascii.eqb c backslash then String backslash (String c "")
  else if o =? 9 then String backslash "t"
  else if o =? 10 then String backslash "n"
  else if o =? 13 then String backslash "r"
  else if (o <? 32) || (o =? 127) then
    String backslash (String "x" (String (hex_digit (o / 16)) (String (hex_digit (o mod 16)) "")))
  else String c "".

Definition str_repr (s : string) : string :=
  let cs := list_ascii_of_string s in
  let quote :=
    if existsb (Ascii.eqb quote1) cs && negb (existsb (Ascii.eqb quote2) cs)
    then quote2 else quote1 in
  String quote (String.concat "" (map (escape quote) cs) ++ String quote "").

(** *** [repr] of a float: the shortest decimal that reads back as it *)

Fixpoint first_scale (fuel : nat) (j V den : Z) : Z :=
  match fuel with
  | O => j
  | S fuel' => if den <=? V * 10 ^ j then j else first_scale fuel' (j + 1) V den
  end.

(** The [k] with [10^(k-1) <= V/den < 10^k]. *)
Definition decimal_point (V den : Z) : Z :=
  if den <=? V then Z.of_nat (String.length (str_of_int (V / den)))
  else 1 - first_scale 400 1 V den.

(** The [n]-digit decimal [c * 10^(k-n)] nearest to [V/den] among those in
    the interval from [lo/den] to [hi/den], if there is one. *)
Definition candidate (n k V lo hi den : Z) (closed : bool) : option Z :=
  let s := k - n in
  let D := if 0 <=? s then den * 10 ^ s else den in
  let up := fun X => if 0 <=? s then X else X * 10 ^ (- s) in
  let d := up V / D in
  let inside := fun c =>
    if closed then (up lo <=? c * D) && (c * D <=? up hi)
    else (up lo <? c * D) && (c * D <? up hi) in
  let below := up V - d * D in
  let above := (d + 1) * D - up V in
  match inside d, inside (d + 1) with
  | true, true =>
      Some (if below <? above then d
            else if above <? below then d + 1
            else if Z.even d then d else d + 1)
  | true, false => Some d
  | false, true => Some (d + 1)
  | false, false => None
  end.

Fixpoint shortest (fuel : nat) (n k V lo hi den : Z) (closed : bool) : Z * Z :=
  match candidate n k V lo hi den closed, fuel with
  | Some c, _ => (c, n)
  | None, S fuel' => shortest fuel' (n + 1) k V lo hi den closed
  | None, O => (0, n)
  end.

Fixpoint strip_zeros (rev_digits : list ascii) : list ascii :=
  match rev_digits with
  | c :: l => if Ascii.eqb c "0" then strip_zeros l else rev_digits
  | [] => []
  end.

Definition zeros (n : Z) : string := string_of_list_ascii (repeat "0"%char (Z.to_nat n)).

(** The digits and the position of the decimal point of [m * 2^e]. *)
Definition shortest_digits (m : positive) (e : Z) : string * Z :=
  let boundary := (Zpos m =? 2 ^ 52) && (-1074 <? e) in
  let delta := if boundary then 1 else 2 in
  let sh := e - 2 in
  let scale := fun X => if 0 <=? sh then X * 2 ^ sh else X in
  let den := if 0 <=? sh then 1 else 2 ^ (- sh) in
  let V := scale (4 * Zpos m) in
  let lo := scale (4 * Zpos m - delta) in
  let hi := scale (4 * Zpos m + 2) in
  let k := decimal_point V den in
  let '(c, n) := shortest 17 1 k V lo hi den (Z.even (Zpos m)) in
  let all := str_of_int c in
  let digits := string_of_list_ascii (rev (strip_zeros (rev (list_ascii_of_string all)))) in
  (digits, k + (Z.of_nat (String.length all) - n)).

Definition format_digits (digits : string) (decpt : Z) : string :=
  let L := Z.of_nat (String.length digits) in
  if (-4 <? decpt) && (decpt <=? 16) then
    if decpt <=? 0 then "0." ++ zeros (- decpt) ++ digits
    else if L <=? decpt then digits ++ zeros (decpt - L) ++ ".0"
    else substring 0 (Z.to_nat decpt) digits ++ "."
           ++ substring (Z.to_nat decpt) (Z.to_nat (L - decpt)) digits
  else
    let e := decpt - 1 in
    let mantissa := match digits with
                    | String c EmptyString => digits
                    | String c rest => String c ("." ++ rest)
                    | EmptyString => digits
                    end in
    mantissa ++ "e" ++ (if e <? 0 then "-" else "+")
      ++ (if Z.abs e <? 10 then "0" else "") ++ str_of_int (Z.abs e).

Definition float_repr (f : float) : string :=
  match Prim2SF f with
  | S754_zero s => if s then "-0.0" else "0.0"
  | S754_infinity s => if s then "-inf" else "inf"
  | S754_nan => "nan"
  | S754_finite s m e =>
      let '(digits, decpt) := shortest_digits m e in
      (if s then "-" else "") ++ format_digits digits decpt
  end.

(** *** [datetime] in UTC *)

(** Seconds since the epoch, and microseconds. *)
Definition datetime : Type := Z * Z.

(** Year, month and day of a day number (day 0 is 1970-01-01). *)
Definition civil_from_days (days : Z) : Z * Z * Z :=
  let z := days + 719468 in
  let era := z / 146097 in
  let doe := z - era * 146097 in
  let yoe := (doe - doe / 1460 + doe / 36524 - doe / 146096) / 365 in
  let doy := doe - (365 * yoe + yoe / 4 - yoe / 100) in
  let mp := (5 * doy + 2) / 153 in
  let d := doy - (153 * mp + 2) / 5 + 1 in
  let m := if mp <? 10 then mp + 3 else mp - 9 in
  ((yoe + era * 400 + (if m <=? 2 then 1 else 0), m), d).

(** The platform's range checks, then the date in UTC. *)
Definition local (sec us : Z) : result datetime :=
  if (sec <? -67768040609740800) || (67768036191676799 <? sec) then Raise OSError
  else if (sec <? -62135510400) || (253402300799 <? sec) then Raise ValueError
  else Ok (sec, us).

Definition fromtimestamp_int (n : Z) : result datetime :=
  if (n <? - 2 ^ 63) || (2 ^ 63 <=? n) then Raise OverflowError else local n 0.

(** The nearest integer of a finite float, ties to even. *)
Definition round_half_even (f : float) : Z :=
  match Prim2SF f with
  | S754_finite s m (Zneg p) =>
      let q := Z.shiftr (Zpos m) (Zpos p) in
      let r := Zpos m - Z.shiftl q (Zpos p) in
      let half := 2 ^ (Zpos p - 1) in
      let a := if (half <? r) || ((half =? r) && Z.odd q) then q + 1 else q in
      if s then - a else a
  | S754_finite s m e => if s then - Z.shiftl (Zpos m) e else Z.shiftl (Zpos m) e
  | _ => 0
  end.

Definition fromtimestamp_float (d : float) : result datetime :=
  if is_nan d then Raise ValueError else
  match int_of_float d with
  | Raise _ => Raise OverflowError
  | Ok intpart =>
      let floatpart := ((d - SF2Prim (binary_normalize prec emax intpart 0 false)) * 1e6)%float in
      let us := round_half_even floatpart in
      let '(sec, us) := if 1000000 <=? us then (intpart + 1, us - 1000000)
                        else if us <? 0 then (intpart - 1, us + 1000000)
                        else (intpart, us) in
      if (sec <? - 2 ^ 63) || (2 ^ 63 <? sec) then Raise OverflowError else local sec us
  end.

Definition weekdays : list string :=
  ["Monday"; "Tuesday"; "Wednesday"; "Thursday"; "Friday"; "Saturday"; "Sunday"].

Definition months : list string :=
  ["January"; "February"; "March"; "April"; "May"; "June"; "July"; "August";
   "September"; "October"; "November"; "December"].

Definition two_digits (n : Z) : string := (if n <? 10 then "0" else "") ++ str_of_int n.

(** One conversion of [strftime]. *)
Definition directive (dt : datetime) (c : ascii) : string :=
  let sec := fst dt in
  let days := sec / 86400 in
  let '(_, month, day) := civil_from_days days in
  let hour := sec mod 86400 / 3600 in
  let minute := sec mod 3600 / 60 in
  if Ascii.eqb c "A" then nth (Z.to_nat ((days + 3) mod 7)) weekdays ""
  else if Ascii.eqb c "B" then nth (Z.to_nat (month - 1)) months ""
  else if Ascii.eqb c "d" then two_digits day
  else if Ascii.eqb c "I" then two_digits (if hour mod 12 =? 0 then 12 else hour mod 12)
  else if Ascii.eqb c "M" then two_digits minute
  else if Ascii.eqb c "p" then (if hour <? 12 then "AM" else "PM")
  else if Ascii.eqb c "%" then "%"
  else String "%" (String c "").

Fixpoint strftime (dt : datetime) (fmt : string) : string :=
  match fmt with
  | String "%" (String c rest) => directive dt c ++ strftime dt rest
  | String c rest => String c (strftime dt rest)
  | EmptyString => EmptyString
  end.

End Ref.

#[export] Instance reference_runtime : PyRuntime := {|
  float_repr := Ref.float_repr;
  str_repr := Ref.str_repr;
  str_title := Ref.str_title;
  datetime := Ref.datetime;
  fromtimestamp_int := Ref.fromtimestamp_int;
  fromtimestamp_float := Ref.fromtimestamp_float;
  strftime := Ref.strftime
|}.

(** ** What the tools fetch *)

Section Fetched.
Context {rt : PyRuntime}.

(** The value [make_nws_request] hands to [get_alerts]. *)
Definition alerts_data (state : string) (w : world) : json :=
  fst (make_nws_request (alerts_url state) w).

(** The value [make_openweather_request] hands to [get_forecast] when the
    configured key is [api_key]. *)
Definition forecast_data (latitude longitude : float) (api_key : string) (w : world) : json :=
  fst (make_openweather_request (forecast_url latitude longitude api_key) w).

(** What [{d.get(k, placeholder)}] renders for a dict [d]. *)
Definition field (kv : list (string * json)) (k placeholder : string) : string :=
  match dict_get k kv with
  | Some v => str v
  | None => placeholder
  end.

(** The block [format_alert] renders from the properties of a feature. *)
Definition alert_block (props : list (string * json)) : string :=
  nl ++ "Event: " ++ field props "event" "Unknown" ++ nl
     ++ "Area: " ++ field props "areaDesc" "Unknown" ++ nl
     ++ "Severity: " ++ field props "severity" "Unknown" ++ nl
     ++ "Description: " ++ field props "description" "No description available" ++ nl
     ++ "Instructions: " ++ field props "instruction" "No specific instructions provided" ++ nl.

(** The first line of a forecast. *)
Definition header (kv : list (string * json)) : string :=
  match dict_get "city" kv with
  | Some (JObj city) =>
      "Forecast for " ++ field city "name" "Unknown"
        ++ match dict_get "country" city with
           | Some c => if truthy c then ", " ++ str c else ""
           | None => ""
           end
  | _ => "Forecast for Unknown"
  end.

(** *** Bodies the tools are written for *)

Definition is_ok {A : Type} (r : result A) : bool :=
  match r with Ok _ => true | Raise _ => false end.

Definition has_key (k : string) (kv : list (string * json)) : bool :=
  match dict_get k kv with Some _ => true | None => false end.

(** An alert feature: an object with an object under ["properties"]. *)
Definition feature_ok (feature : json) : bool :=
  match subscript feature "properties" with
  | Ok (JObj _) => true
  | _ => false
  end.

(** No data, or an object whose ["features"], when present and not falsy,
    is a list of alert features. *)
Definition alerts_body_ok (data : json) : bool :=
  match data with
  | JNull => true
  | JObj kv =>
      match dict_get "features" kv with
      | None => true
      | Some (JArr l) => forallb feature_ok l
      | Some v => negb (truthy v)
      end
  | _ => false
  end.

(** A wind degree value the direction is defined for: falsy, or a number
    for which [(deg + 11.25) / 22.5] is finite. *)
Definition deg_ok (deg : json) : bool :=
  negb (truthy deg) ||
  match add_float deg 11.25%float with
  | Ok x => match Prim2SF (x / 22.5)%float with
            | S754_zero _ | S754_finite _ _ _ => true
            | _ => false
            end
  | Raise _ => false
  end.

(** A forecast period: an object with a timestamp the platform converts,
    the three measurements under ["main"], a described first weather entry
    and, when ["wind"] is present, an object with a usable degree. *)
Definition period_ok (period : json) : bool :=
  match period with
  | JObj kv =>
      match dict_get "dt" kv, dict_get "main" kv, dict_get "weather" kv with
      | Some ts, Some (JObj main), Some (JArr (JObj weather0 :: _)) =>
          is_ok (fromtimestamp ts)
          && has_key "temp" main && has_key "feels_like" main && has_key "humidity" main
          && match dict_get "description" weather0 with
             | Some (JStr _) => true
             | _ => false
             end
          && match dict_get "wind" kv with
             | None => true
             | Some (JObj wind) =>
                 match dict_get "deg" wind with
                 | Some deg => deg_ok deg
                 | None => true
                 end
             | Some _ => false
             end
      | _, _, _ => false
      end
  | _ => false
  end.

(** The body has no ["cod"], or its ["cod"] is the string ["200"]. *)
Definition passes_status (kv : list (string * json)) : bool :=
  match dict_get "cod" kv with
  | Some cod => eq_str cod "200"
  | None => true
  end.

(** The body has no ["city"], or its ["city"] is an object. *)
Definition city_ok (kv : list (string * json)) : bool :=
  match dict_get "city" kv with
  | None | Some (JObj _) => true
  | Some _ => false
  end.

(** No data, or an object that reports an error status, or one whose
    ["city"], when present, is an object and whose ["list"], when present
    and not falsy, is a list starting with at most five forecast periods. *)
Definition forecast_body_ok (data : json) : bool :=
  match data with
  | JNull => true
  | JObj kv =>
      negb (passes_status kv)
      || (city_ok kv
          && match dict_get "list" kv with
             | None => true
             | Some (JArr l) => forallb period_ok (firstn 5 l)
             | Some v => negb (truthy v)
             end)
  | _ => false
  end.

End Fetched.

(** ** The bucket formula as the specification words it *)

(** The nearest integer of [num / den] for [den > 0], ties to even. *)
Definition round_nearest (num den : Z) : Z :=
  let q := num / den in
  let r := num mod den in
  if 2 * r <? den then q
  else if den <? 2 * r then q + 1
  else if Z.even q then q else q + 1.

(** [round((degrees + 11.25) / 22.5) mod 16] for whole degrees: the
    quotient is [(4 * degrees + 45) / 90]. *)
Definition spec_bucket (degrees : Z) : Z :=
  round_nearest (4 * degrees + 45) 90 mod 16.

(** [int((degrees + 11.25) / 22.5) % 16] in exact arithmetic, for whole
    degrees: [Z.quot] truncates toward zero. *)
Definition trunc_bucket (degrees : Z) : Z :=
  Z.quot (4 * degrees + 45) 90 mod 16.

(** The tool and the exact formula agree at [n] degrees. *)
Definition bucket_agrees (n : Z) : bool :=
  match wind_direction (JInt n) with
  | Ok d => String.eqb d (nth (Z.to_nat (trunc_bucket n)) directions "")
  | Raise _ => false
  end.

(** ** Sample worlds *)

(** A world whose servers answer every request with [body]. *)
Definition serving (key : option string) (body : json) : world :=
  {| env_api_key := key; http_get_json := fun _ _ => Ok body; sent := [] |}.

(** A world whose servers fail every request. *)
Definition offline (key : option string) : world :=
  {| env_api_key := key; http_get_json := fun _ _ => Raise HTTPError; sent := [] |}.

Definition sample_period (dt : Z) (desc : string) (wind : list (string * json)) : json :=
  JObj [("dt", JInt dt);
        ("main", JObj [("temp", JFloat 11.5); ("feels_like", JFloat 10.25); ("humidity", JInt 81)]);
        ("weather", JArr [JObj [("id", JInt 500); ("description", JStr desc)]]);
        ("wind", JObj wind)].

Definition sample_periods : list json :=
  map (fun i => sample_period (1700000000 + 10800 * i) "light rain"
                 [("speed", JFloat 4.5); ("deg", JInt (45 * i))])
      [0; 1; 2; 3; 4; 5; 6; 7].

Definition sample_body : list (string * json) :=
  [("cod", JStr "200");
   ("city", JObj [("name", JStr "London"); ("country", JStr "GB")]);
   ("list", JArr sample_periods)].

Definition sample_forecast : json := JObj sample_body.

Definition sample_reading (i : Z) : reading :=
  {| r_dt := (1700000000 + 10800 * i, 0);
     r_temp := JFloat 11.5; r_feels_like := JFloat 10.25; r_humidity := JInt 81;
     r_weather_desc := "Light Rain";
     r_wind_speed := JFloat 4.5; r_wind_deg := JInt (45 * i) |}.

Definition sample_alerts : json :=
  JObj [("features",
         JArr [JObj [("properties",
                      JObj [("event", JStr "Flood Warning"); ("severity", JStr "Severe")])];
               JObj [("properties", JObj [])]])].

(** A world with both servers: the alerts server answers the requests that
    carry a [User-Agent], the forecast server the others. *)
Definition sample_world (key : option string) : world :=
  {| env_api_key := key;
     http_get_json := fun _ r =>
       match req_headers r with
       | [] => Ok sample_forecast
       | _ => Ok sample_alerts
       end;
     sent := [] |}.

(** ** When the tools return *)

(** A value of ["features"] that [get_alerts] reports as empty or renders:
    falsy, or a list of alert features. *)
Definition features_render (features : json) : bool :=
  negb (truthy features)
  || match features with
     | JArr l => forallb feature_ok l
     | _ => false
     end.

(** The bodies on which [get_alerts] returns a string: the falsy ones; an
    object whose ["features"] is absent or as above; a list without the
    element ["features"]; a string without the substring ["features"]. *)
Definition alerts_returns (data : json) : bool :=
  negb (truthy data)
  || match data with
     | JObj kv =>
         match dict_get "features" kv with
         | None => true
         | Some features => features_render features
         end
     | JArr l => negb (existsb (fun x => eq_str x "features") l)
     | JStr s => match String.index 0 "features" s with Some _ => false | None => true end
     | _ => false
     end.

Section Returns.
Context {rt : PyRuntime}.

(** A value of ["list"] that [get_forecast] reports as empty or renders:
    falsy, or a list whose first five elements are forecast periods. *)
Definition list_renders (periods : json) : bool :=
  negb (truthy periods)
  || match periods with
     | JArr l => forallb period_ok (firstn 5 l)
     | _ => false
     end.

(** The bodies on which [get_forecast] returns a string: the falsy ones,
    and an object that reports an error status, or whose ["city"] is absent
    or an object and whose ["list"] is absent or as above. *)
Definition forecast_returns (data : json) : bool :=
  negb (truthy data)
  || match data with
     | JObj kv =>
         negb (passes_status kv)
         || (city_ok kv
             && match dict_get "list" kv with
                | None => true
                | Some periods => list_renders periods
                end)
     | _ => false
     end.

End Returns.

(** ** Sequences of calls *)

(** One invocation of a tool by the host. *)
Inductive call : Type :=
| Alerts (state : string)
| Forecast (latitude longitude : float).

Section Sessions.
Context {rt : PyRuntime}.

Definition invoke (c : call) (w : world) : result string * world :=
  match c with
  | Alerts state => get_alerts state w
  | Forecast latitude longitude => get_forecast latitude longitude w
  end.

(** The calls of a session, one after the other, each in the world the
    one before left. *)
Fixpoint run (calls : list call) (w : world) : list (result string) * world :=
  match calls with
  | [] => ([], w)
  | c :: calls' =>
      let '(r, w1) := invoke c w in
      let '(rs, w2) := run calls' w1 in
      (r :: rs, w2)
  end.

(** The request a call is expected to send when the configured key is
    [key]: none for a forecast without a key. *)
Definition requests_of (key : option string) (c : call) : list request :=
  match c with
  | Alerts state => [nws_request (alerts_url state)]
  | Forecast latitude longitude =>
      match key with
      | Some api_key =>
          if String.eqb api_key "" then []
          else [openweather_request (forecast_url latitude longitude api_key)]
      | None => []
      end
  end.

End Sessions.

(** * Properties *)

(** ** The bucket of whole degrees, by evaluation over the range *)

Lemma bucket_agrees_range :
  forallb (fun i => let n := Z.of_nat i - 3600 in (n =? 0) || bucket_agrees n)
          (seq 0 (Z.to_nat 7201)) = true.
Proof. vm_compute. reflexivity. Qed.

Lemma bucket_agrees_sound (n : Z) :
  n <> 0 -> -3600 <= n <= 3600 ->
  wind_direction (JInt n) = Ok (nth (Z.to_nat (trunc_bucket n)) directions "").
Proof.
  intros Hn Hrange.
  assert (Hin : In (Z.to_nat (n + 3600)) (seq 0 (Z.to_nat 7201))) by (apply in_seq; lia).
  apply (proj1 (forallb_forall _ _) bucket_agrees_range) in Hin. cbv zeta in Hin.
  assert (Hback : Z.of_nat (Z.to_nat (n + 3600)) - 3600 = n) by lia.
  rewrite Hback in Hin. apply orb_true_iff in Hin as [H0 | Hb].
  - apply Z.eqb_eq in H0. contradiction.
  - unfold bucket_agrees in Hb.
    destruct (wind_direction (JInt n)) as [d |]; [| discriminate].
    apply String.eqb_eq in Hb. rewrite Hb. reflexivity.
Qed.

Section Properties.
Context {rt : PyRuntime}.

(** ** Strings *)

Lemma append_assoc (s1 s2 s3 : string) : (s1 ++ s2) ++ s3 = s1 ++ (s2 ++ s3).
Proof. induction s1 as [| c s1 IH]; simpl; [reflexivity | now rewrite IH]. Qed.

Lemma append_empty_r (s : string) : s ++ "" = s.
Proof. induction s as [| c s IH]; simpl; [reflexivity | now rewrite IH]. Qed.

(** ** The monad and the loop *)

Lemma mapM_Forall2 {A B : Type} (f : A -> result B) (l : list A) (bs : list B) :
  mapM f l = Ok bs <-> Forall2 (fun a b => f a = Ok b) l bs.
Proof.
  revert bs. induction l as [| a l IH]; intros bs; simpl.
  - split; intros H.
    + injection H as <-. constructor.
    + inversion H. reflexivity.
  - split; intros H.
    + destruct (f a) as [b | e] eqn:Ha; simpl in H; [| discriminate].
      destruct (mapM f l) as [bs' | e] eqn:Hl; simpl in H; [| discriminate].
      injection H as <-. constructor; [assumption |]. apply IH. reflexivity.
    + inversion H as [| a' b l' bs' Ha Hl]; subst.
      rewrite Ha. simpl. apply IH in Hl. rewrite Hl. reflexivity.
Qed.

Lemma mapM_total {A B : Type} (f : A -> result B) (l : list A) :
  forallb (fun a => is_ok (f a)) l = true -> exists bs, mapM f l = Ok bs.
Proof.
  induction l as [| a l IH]; simpl; intros H.
  - exists []. reflexivity.
  - apply andb_true_iff in H as [Ha Hl].
    destruct (f a) as [b | e]; [| discriminate].
    destruct (IH Hl) as [bs Hbs]. rewrite Hbs. exists (b :: bs). reflexivity.
Qed.

Lemma forallb_impl {A : Type} (p q : A -> bool) (l : list A) :
  (forall a, p a = true -> q a = true) -> forallb p l = true -> forallb q l = true.
Proof.
  intros Hpq. induction l as [| a l IH]; simpl; [reflexivity |].
  intros H. apply andb_true_iff in H as [Ha Hl].
  rewrite (Hpq a Ha), (IH Hl). reflexivity.
Qed.

(** ** The tools read the world only through the fetch layer *)

Lemma get_alerts_fetched (state : string) (w : world) :
  get_alerts state w = (alerts_of (alerts_data state w), snd (send (nws_request (alerts_url state)) w)).
Proof. reflexivity. Qed.

Lemma get_forecast_fetched (latitude longitude : float) (w : world) (api_key : string) :
  env_api_key w = Some api_key -> api_key <> "" ->
  get_forecast latitude longitude w =
    (forecast_of (forecast_data latitude longitude api_key w),
     snd (send (openweather_request (forecast_url latitude longitude api_key)) w)).
Proof.
  intros Hkey Hne. unfold get_forecast, get_openweather_api_key. rewrite Hkey.
  destruct (String.eqb_spec api_key "") as [-> | _]; [contradiction | reflexivity].
Qed.

(** ** Alerts *)

Lemma format_alert_props (feature : json) (props : list (string * json)) :
  subscript feature "properties" = Ok (JObj props) ->
  format_alert feature = Ok (alert_block props).
Proof.
  intros H. unfold format_alert. rewrite H. simpl.
  unfold alert_text, alert_block, field.
  destruct (dict_get "event" props), (dict_get "areaDesc" props),
    (dict_get "severity" props), (dict_get "description" props),
    (dict_get "instruction" props); reflexivity.
Qed.

Lemma feature_ok_format (feature : json) :
  feature_ok feature = true -> is_ok (format_alert feature) = true.
Proof.
  unfold feature_ok. intros H.
  destruct (subscript feature "properties") as [[| | | | | | props] |] eqn:E;
    try discriminate.
  rewrite (format_alert_props _ _ E). reflexivity.
Qed.

Lemma alerts_of_list (kv : list (string * json)) (features : list json) :
  dict_get "features" kv = Some (JArr features) -> features <> [] ->
  alerts_of (JObj kv) =
    alerts <- mapM format_alert features ;; Ok (String.concat (nl ++ "---" ++ nl) alerts).
Proof.
  intros H Hne. unfold alerts_of.
  destruct kv as [| item kv']; [discriminate |].
  cbn [truthy negb contains subscript bind]. rewrite H. cbn [negb bind truthy].
  destruct features; [contradiction | reflexivity].
Qed.

(** ** Forecast *)

Lemma deg_ok_direction (deg : json) :
  deg_ok deg = true -> is_ok (wind_direction deg) = true.
Proof.
  unfold deg_ok, wind_direction. destruct (truthy deg); simpl; [| reflexivity].
  destruct (add_float deg 11.25%float) as [x |]; simpl; [| discriminate].
  unfold int_of_float. destruct (Prim2SF (x / 22.5)%float); simpl;
    solve [reflexivity | discriminate].
Qed.

Lemma period_ok_format (period : json) :
  period_ok period = true -> is_ok (format_period period) = true.
Proof.
  unfold period_ok. destruct period as [| | | | | | kv]; try discriminate.
  destruct (dict_get "dt" kv) as [ts |] eqn:Ets; [| discriminate].
  destruct (dict_get "main" kv) as [[| | | | | | main] |] eqn:Emain; try discriminate.
  destruct (dict_get "weather" kv) as [[| | | | | weather |] |] eqn:Ew; try discriminate.
  destruct weather as [| [| | | | | | weather0] weather']; try discriminate.
  unfold has_key, is_ok.
  destruct (fromtimestamp ts) as [dt |] eqn:Edt; [| discriminate].
  destruct (dict_get "temp" main) as [temp |] eqn:Etemp; [| discriminate].
  destruct (dict_get "feels_like" main) as [feels |] eqn:Efeels; [| discriminate].
  destruct (dict_get "humidity" main) as [hum |] eqn:Ehum; [| discriminate].
  destruct (dict_get "description" weather0) as [[| | | | desc | |] |] eqn:Edesc;
    try discriminate.
  cbn [andb]. intros Hwind.
  unfold format_period, read_period.
  cbn [subscript subscript0 get bind title].
  rewrite Ets. cbn [bind]. rewrite Edt. cbn [bind]. rewrite Emain. cbn [bind subscript].
  rewrite Etemp, Efeels, Ehum. cbn [bind]. rewrite Ew. cbn [bind subscript0 subscript].
  rewrite Edesc. cbn [bind title].
  destruct (dict_get "wind" kv) as [[| | | | | | wind] |]; try discriminate;
    cbn [get bind r_wind_deg].
  - destruct (dict_get "deg" wind) as [deg |].
    + apply deg_ok_direction in Hwind.
      destruct (wind_direction deg); [reflexivity | discriminate].
    + reflexivity.
  - reflexivity.
Qed.

Lemma forecast_of_error (kv : list (string * json)) (cod : json) :
  dict_get "cod" kv = Some cod -> eq_str cod "200" = false ->
  forecast_of (JObj kv) = Ok ("Unable to fetch forecast: " ++ field kv "message" "Unknown error").
Proof.
  intros Hcod Hne. unfold forecast_of.
  destruct kv as [| item kv']; [discriminate |].
  cbn [truthy negb contains subscript bind]. rewrite Hcod. cbn [bind]. rewrite Hne.
  cbn [negb get bind]. unfold field.
  destruct (dict_get "message" (item :: kv')); reflexivity.
Qed.

Lemma forecast_of_periods (kv : list (string * json)) :
  kv <> [] -> passes_status kv = true -> city_ok kv = true ->
  forecast_of (JObj kv) =
    let periods := match dict_get "list" kv with Some x => x | None => JArr [] end in
    if negb (truthy periods) then Ok "No forecast data available." else
    first5 <- slice5 periods ;;
    items <- iterate first5 ;;
    forecasts <- mapM format_period items ;;
    Ok (String.concat nl (header kv :: rule50 :: forecasts)).
Proof.
  intros Hne Hstatus Hcity. unfold forecast_of, passes_status, city_ok, header in *.
  destruct kv as [| item kv']; [contradiction |].
  cbn [truthy negb contains bind].
  set (d := item :: kv') in *.
  assert (Hfailed :
            (if match dict_get "cod" d with Some _ => true | None => false end
             then cod <- subscript (JObj d) "cod" ;; Ok (negb (eq_str cod "200"))
             else Ok false) = Ok false).
  { cbn [subscript]. destruct (dict_get "cod" d) as [cod |]; [| reflexivity].
    cbn [bind]. rewrite Hstatus. reflexivity. }
  rewrite Hfailed. cbn [bind get].
  destruct (dict_get "city" d) as [[| | | | | | city] |]; try discriminate;
    cbn [get bind dict_get field]; unfold field.
  - destruct (dict_get "country" city) as [c |]; cbn [truthy].
    + destruct (truthy c); destruct (dict_get "name" city); cbn [str];
        rewrite ?append_assoc, ?append_empty_r; reflexivity.
    + destruct (dict_get "name" city); cbn [str negb String.eqb];
        rewrite ?append_empty_r; reflexivity.
  - reflexivity.
Qed.

Lemma alerts_of_ok (data : json) :
  alerts_body_ok data = true -> exists s, alerts_of data = Ok s.
Proof.
  destruct data as [| | | | | | kv]; try discriminate.
  - intros _. eexists. reflexivity.
  - unfold alerts_body_ok. destruct kv as [| item kv'].
    + intros _. eexists. reflexivity.
    + set (d := item :: kv').
      destruct (dict_get "features" d) as [v |] eqn:Hf.
      * assert (Hfalsy : truthy v = false -> exists s, alerts_of (JObj d) = Ok s).
        { intros Hv. unfold alerts_of. cbn [truthy negb contains subscript bind].
          rewrite Hf. cbn [negb bind]. rewrite Hv. eexists. reflexivity. }
        destruct v as [| b | n | f | str0 | l | kv0];
          try (intros H; apply Hfalsy; apply negb_true_iff; exact H).
        destruct l as [| f0 l']; [intros _; apply Hfalsy; reflexivity |].
        intros Hall. rewrite (alerts_of_list d (f0 :: l') Hf); [| discriminate].
        destruct (mapM_total format_alert (f0 :: l')) as [bs Hbs].
        { revert Hall. apply forallb_impl. apply feature_ok_format. }
        rewrite Hbs. eexists. reflexivity.
      * intros _. unfold alerts_of. cbn [truthy negb contains bind]. rewrite Hf.
        eexists. reflexivity.
Qed.

Lemma forecast_of_ok (data : json) :
  forecast_body_ok data = true -> exists s, forecast_of data = Ok s.
Proof.
  destruct data as [| | | | | | kv]; try discriminate.
  - intros _. eexists. reflexivity.
  - unfold forecast_body_ok. destruct kv as [| item kv'].
    + intros _. eexists. reflexivity.
    + set (d := item :: kv').
      destruct (passes_status d) eqn:Hstatus; cbn [negb orb].
      * intros H. apply andb_true_iff in H as [Hcity Hlist].
        rewrite (forecast_of_periods d); [| discriminate | assumption | assumption].
        cbv zeta. destruct (dict_get "list" d) as [v |].
        -- destruct v as [| b | n | f | str0 | l | kv0];
             try (rewrite Hlist; eexists; reflexivity).
           destruct l as [| p0 l']; [eexists; reflexivity |].
           cbn [truthy negb slice5 iterate bind].
           destruct (mapM_total format_period (firstn 5 (p0 :: l'))) as [bs Hbs].
           { revert Hlist. apply forallb_impl. apply period_ok_format. }
           rewrite Hbs. eexists. reflexivity.
        -- eexists. reflexivity.
      * intros _. unfold passes_status in Hstatus.
        destruct (dict_get "cod" d) as [cod |] eqn:Hcod; [| discriminate].
        rewrite (forecast_of_error d cod Hcod Hstatus). eexists. reflexivity.
Qed.

Lemma read_period_deg (wind : list (string * json)) (kv : list (string * json)) (r : reading) :
  dict_get "wind" kv = Some (JObj wind) ->
  read_period (JObj kv) = Ok r ->
  r_wind_deg r = match dict_get "deg" wind with Some deg => deg | None => JInt 0 end.
Proof.
  intros Hwind. unfold read_period. cbn [get]. rewrite Hwind. cbn [get].
  repeat (cbn [bind get];
          match goal with
          | |- bind ?x _ = Ok _ -> _ =>
              lazymatch x with
              | Ok _ => fail
              | _ => destruct x; [| discriminate]
              end
          end).
  cbn [bind]. intros H. injection H as <-. reflexivity.
Qed.

Lemma read_period_speed (wind : list (string * json)) (kv : list (string * json)) (r : reading) :
  dict_get "wind" kv = Some (JObj wind) ->
  read_period (JObj kv) = Ok r ->
  r_wind_speed r = match dict_get "speed" wind with Some speed => speed | None => JInt 0 end.
Proof.
  intros Hwind. unfold read_period. cbn [get]. rewrite Hwind. cbn [get].
  repeat (cbn [bind get];
          match goal with
          | |- bind ?x _ = Ok _ -> _ =>
              lazymatch x with
              | Ok _ => fail
              | _ => destruct x; [| discriminate]
              end
          end).
  cbn [bind]. intros H. injection H as <-. reflexivity.
Qed.

(** ** The claims *)

(** C1 (amended): get_alerts and get_forecast return a string, and raise
    nothing, whenever the fetch layer yields no data or a body of the shape
    the tools are written for: every element of a non-empty 'features' list
    is an object with an object under 'properties'; 'city', when present, is
    an object; each of the first five periods has a 'dt' the platform
    converts, a 'main' with 'temp', 'feels_like' and 'humidity', a 'weather'
    list whose first entry has a string 'description', and a 'wind' that is
    absent or an object whose 'deg' is absent, falsy or a number with a finite
    quotient. *)
Theorem C1_tools_return_on_expected_bodies
    (state : string) (latitude longitude : float) (w : world) :
  alerts_body_ok (alerts_data state w) = true ->
  (forall api_key, env_api_key w = Some api_key ->
     forecast_body_ok (forecast_data latitude longitude api_key w) = true) ->
  (exists s, fst (get_alerts state w) = Ok s) /\
  (exists s, fst (get_forecast latitude longitude w) = Ok s).
Proof.
  intros Halerts Hforecast. split.
  - rewrite get_alerts_fetched. cbn [fst]. apply alerts_of_ok. exact Halerts.
  - destruct (env_api_key w) as [api_key |] eqn:Hkey.
    + destruct (String.eqb_spec api_key "") as [-> | Hne].
      * unfold get_forecast, get_openweather_api_key. rewrite Hkey.
        eexists. reflexivity.
      * rewrite (get_forecast_fetched _ _ _ api_key Hkey Hne). cbn [fst].
        apply forecast_of_ok. apply Hforecast. reflexivity.
    + unfold get_forecast, get_openweather_api_key. rewrite Hkey.
      eexists. reflexivity.
Qed.

(** C2 (amended): the cardinal direction is
    [directions[int((degrees + 11.25) / 22.5) mod 16]], where [int]
    truncates toward zero (it does not round): for whole degrees from -3600
    to 3600 other than 0 the index is the truncated quotient of
    [4 * degrees + 45] by [90], modulo 16, in the list N, NNE, ..., NNW; a
    falsy degree value, and an absent one (read as 0), gives "N/A". *)
Theorem C2_direction_bucket_truncates
    (deg : json) (wind : list (string * json)) (n : Z) :
  truthy deg = false ->
  dict_get "deg" wind = None ->
  n <> 0 -> -3600 <= n <= 3600 ->
  wind_direction deg = Ok "N/A" /\
  (wind_deg <- get (JObj wind) "deg" (JInt 0) ;; wind_direction wind_deg) = Ok "N/A" /\
  wind_direction (JInt n) = Ok (nth (Z.to_nat (trunc_bucket n)) directions "") /\
  0 <= trunc_bucket n < 16 /\
  directions = ["N"; "NNE"; "NE"; "ENE"; "E"; "ESE"; "SE"; "SSE";
                "S"; "SSW"; "SW"; "WSW"; "W"; "WNW"; "NW"; "NNW"].
Proof.
  intros Hfalsy Habsent Hn Hrange. repeat split.
  - unfold wind_direction. rewrite Hfalsy. reflexivity.
  - cbn [get]. rewrite Habsent. reflexivity.
  - apply bucket_agrees_sound; assumption.
  - unfold trunc_bucket. apply Z.mod_pos_bound. lia.
  - unfold trunc_bucket. apply Z.mod_pos_bound. lia.
Qed.

(** C3: a period whose wind 'deg' is 0 renders the direction "N/A"; 90
    renders "E" (bucket 4); 11 renders "N" (bucket 0); 349 renders "N" (the
    quotient 16 wraps around to bucket 0).  The block is spelled out: its
    last line is "Wind: ", the speed (0 when the wind has none), " m/s "
    and the direction. *)
Theorem C3_direction_examples
    (kv wind : list (string * json)) (r : reading) (deg : Z) (direction : string) :
  dict_get "wind" kv = Some (JObj wind) ->
  dict_get "deg" wind = Some (JInt deg) ->
  read_period (JObj kv) = Ok r ->
  In (deg, direction) [(0, "N/A"); (90, "E"); (11, "N"); (349, "N")] ->
  format_period (JObj kv)
    = Ok (nl ++ strftime (r_dt r) "%A, %B %d at %I:%M %p" ++ ":" ++ nl
             ++ "Temperature: " ++ str (r_temp r) ++ degree_C
             ++ " (feels like " ++ str (r_feels_like r) ++ degree_C ++ ")" ++ nl
             ++ "Weather: " ++ r_weather_desc r ++ nl
             ++ "Humidity: " ++ str (r_humidity r) ++ "%" ++ nl
             ++ "Wind: " ++ field wind "speed" "0" ++ " m/s " ++ direction ++ nl) /\
  trunc_bucket 90 = 4 /\ trunc_bucket 11 = 0 /\
  Z.quot (4 * 349 + 45) 90 = 16 /\ trunc_bucket 349 = 0.
Proof.
  intros Hwind Hdeg Hread Hin. split; [| repeat split].
  unfold format_period. rewrite Hread. cbn [bind].
  rewrite (read_period_deg wind kv r Hwind Hread), Hdeg.
  unfold forecast_text. rewrite (read_period_speed wind kv r Hwind Hread).
  unfold field. cbn [In] in Hin.
  destruct Hin as [H | [H | [H | [H | []]]]]; injection H as <- <-;
    destruct (dict_get "speed" wind); reflexivity.
Qed.

(** C4: get_alerts returns exactly "Unable to fetch alerts or no alerts
    found." when the fetch yields no data (the request raised, or the body
    is null) or an object without a 'features' key, and exactly "No active
    alerts for this state." when the object's 'features' list is empty. *)
Theorem C4_alerts_fixed_messages (state : string) (w : world) :
  ((exists e, http_get_json w (sent w) (nws_request (alerts_url state)) = Raise e) ->
   fst (get_alerts state w) = Ok "Unable to fetch alerts or no alerts found.") /\
  (alerts_data state w = JNull ->
   fst (get_alerts state w) = Ok "Unable to fetch alerts or no alerts found.") /\
  (forall kv, alerts_data state w = JObj kv -> dict_get "features" kv = None ->
   fst (get_alerts state w) = Ok "Unable to fetch alerts or no alerts found.") /\
  (forall kv, alerts_data state w = JObj kv -> dict_get "features" kv = Some (JArr []) ->
   fst (get_alerts state w) = Ok "No active alerts for this state.").
Proof.
  rewrite get_alerts_fetched. cbn [fst]. repeat split.
  - intros [e He]. unfold alerts_data, make_nws_request, send. cbn [fst].
    rewrite He. reflexivity.
  - intros ->. reflexivity.
  - intros kv -> Hf. unfold alerts_of. destruct kv as [| item kv']; [reflexivity |].
    cbn [truthy negb contains bind]. rewrite Hf. reflexivity.
  - intros kv -> Hf. unfold alerts_of. destruct kv as [| item kv']; [discriminate |].
    cbn [truthy negb contains subscript bind]. rewrite Hf. reflexivity.
Qed.

(** C5: for a 'features' list of N >= 1 alert features, get_alerts returns
    the N rendered blocks, in order, joined by "\n---\n"; a block shows
    "Unknown" for a missing 'event', 'areaDesc' or 'severity', "No
    description available" for a missing 'description' and "No specific
    instructions provided" for a missing 'instruction'. *)
Theorem C5_alert_blocks
    (state : string) (w : world) (kv : list (string * json))
    (features : list json) (propss : list (list (string * json))) :
  alerts_data state w = JObj kv ->
  dict_get "features" kv = Some (JArr features) ->
  (1 <= List.length features)%nat ->
  Forall2 (fun feature props => subscript feature "properties" = Ok (JObj props))
          features propss ->
  fst (get_alerts state w)
    = Ok (String.concat (nl ++ "---" ++ nl) (map alert_block propss)) /\
  List.length (map alert_block propss) = List.length features /\
  Forall (fun props =>
            (dict_get "event" props = None -> field props "event" "Unknown" = "Unknown") /\
            (dict_get "areaDesc" props = None -> field props "areaDesc" "Unknown" = "Unknown") /\
            (dict_get "severity" props = None -> field props "severity" "Unknown" = "Unknown") /\
            (dict_get "description" props = None ->
             field props "description" "No description available"
               = "No description available") /\
            (dict_get "instruction" props = None ->
             field props "instruction" "No specific instructions provided"
               = "No specific instructions provided"))
         propss.
Proof.
  intros Hdata Hf Hlen Hprops. repeat split.
  - rewrite get_alerts_fetched. cbn [fst]. rewrite Hdata.
    rewrite (alerts_of_list kv features Hf).
    + assert (Hm : mapM format_alert features = Ok (map alert_block propss)).
      { apply mapM_Forall2. clear Hlen Hf. induction Hprops as [| f props fs ps H _ IH].
        - constructor.
        - cbn [map]. constructor; [apply format_alert_props; exact H | exact IH]. }
      rewrite Hm. reflexivity.
    + intros ->. cbn in Hlen. lia.
  - rewrite length_map. symmetry. eapply Forall2_length. exact Hprops.
  - apply Forall_forall. intros props _. unfold field.
    repeat split; intros ->; reflexivity.
Qed.

(** C6: with no API key configured, get_forecast returns the fixed
    instructional string and leaves the world as it was: no request is
    sent, whatever the latitude and longitude. *)
Theorem C6_no_key_no_request (latitude longitude : float) (w : world) :
  env_api_key w = None ->
  get_forecast latitude longitude w
    = (Ok "Error: OPENWEATHER_API_KEY not found in .env file. Please add it to your .env file.",
       w) /\
  sent (snd (get_forecast latitude longitude w)) = sent w.
Proof.
  intros Hkey. unfold get_forecast, get_openweather_api_key. rewrite Hkey.
  split; reflexivity.
Qed.

(** C7: when the fetched body carries a string 'cod' other than "200",
    get_forecast returns "Unable to fetch forecast: " followed by the
    body's 'message', or by "Unknown error" when there is none; for cod
    "404" and message "city not found" it returns exactly "Unable to fetch
    forecast: city not found". *)
Theorem C7_error_status
    (latitude longitude : float) (w : world) (api_key : string)
    (kv : list (string * json)) (cod : string) :
  env_api_key w = Some api_key -> api_key <> "" ->
  forecast_data latitude longitude api_key w = JObj kv ->
  dict_get "cod" kv = Some (JStr cod) -> cod <> "200" ->
  fst (get_forecast latitude longitude w)
    = Ok ("Unable to fetch forecast: " ++ field kv "message" "Unknown error") /\
  (dict_get "message" kv = None ->
   fst (get_forecast latitude longitude w) = Ok "Unable to fetch forecast: Unknown error") /\
  (cod = "404" -> dict_get "message" kv = Some (JStr "city not found") ->
   fst (get_forecast latitude longitude w) = Ok "Unable to fetch forecast: city not found").
Proof.
  intros Hkey Hne Hdata Hcod Hcod200.
  rewrite (get_forecast_fetched _ _ _ api_key Hkey Hne). cbn [fst]. rewrite Hdata.
  assert (Hneq : eq_str (JStr cod) "200" = false).
  { cbn [eq_str]. apply String.eqb_neq. exact Hcod200. }
  rewrite (forecast_of_error kv _ Hcod Hneq). unfold field. repeat split.
  - intros ->. reflexivity.
  - intros _ ->. reflexivity.
Qed.

(** C8 (amended): for a body object that passes the status check (a key
    is configured, 'cod' is absent or "200", 'city' is absent or an
    object), a 'list' that is absent or empty gives exactly "No forecast
    data available." when the object is not empty, and "Unable to fetch
    forecast data for this location." when it is the empty object; a 'list'
    of N >= 5 periods gives the header, the rule and exactly 5 blocks, which
    render the first 5 periods in input order. *)
Theorem C8_first_five_periods
    (latitude longitude : float) (w : world) (api_key : string)
    (kv : list (string * json)) :
  env_api_key w = Some api_key -> api_key <> "" ->
  forecast_data latitude longitude api_key w = JObj kv ->
  passes_status kv = true -> city_ok kv = true ->
  (dict_get "list" kv = None \/ dict_get "list" kv = Some (JArr []) ->
   fst (get_forecast latitude longitude w)
     = Ok (match kv with
           | [] => "Unable to fetch forecast data for this location."
           | _ :: _ => "No forecast data available."
           end)) /\
  (forall periods,
     dict_get "list" kv = Some (JArr periods) ->
     (5 <= List.length periods)%nat ->
     forallb period_ok (firstn 5 periods) = true ->
     exists blocks,
       Forall2 (fun period block => format_period period = Ok block)
               (firstn 5 periods) blocks /\
       List.length blocks = 5%nat /\
       fst (get_forecast latitude longitude w)
         = Ok (String.concat nl (header kv :: rule50 :: blocks))).
Proof.
  intros Hkey Hne Hdata Hstatus Hcity.
  rewrite (get_forecast_fetched _ _ _ api_key Hkey Hne). cbn [fst]. rewrite Hdata.
  destruct kv as [| item kv'].
  - split; [reflexivity |]. intros periods Hlist. discriminate.
  - set (d := item :: kv') in *.
    rewrite (forecast_of_periods d); [| discriminate | assumption | assumption].
    cbv zeta. split.
    + intros [-> | ->]; reflexivity.
    + intros periods -> Hlen Hok.
      destruct (mapM_total format_period (firstn 5 periods)) as [blocks Hblocks].
      { revert Hok. apply forallb_impl. apply period_ok_format. }
      exists blocks. pose proof (proj1 (mapM_Forall2 _ _ _) Hblocks) as HF.
      split; [exact HF |]. split.
      * rewrite <- (Forall2_length HF). apply firstn_length_le. exact Hlen.
      * destruct periods as [| p0 ps]; [cbn in Hlen; lia |].
        cbn [truthy negb slice5 iterate bind]. rewrite Hblocks. reflexivity.
Qed.

(** C10: when the fetched body carries 'cod' as the integer 200,
    get_forecast takes the error branch: it returns "Unable to fetch
    forecast: " followed by the body's 'message' or "Unknown error", and
    renders no forecast. *)
Theorem C10_integer_cod_is_an_error
    (latitude longitude : float) (w : world) (api_key : string)
    (kv : list (string * json)) :
  env_api_key w = Some api_key -> api_key <> "" ->
  forecast_data latitude longitude api_key w = JObj kv ->
  dict_get "cod" kv = Some (JInt 200) ->
  fst (get_forecast latitude longitude w)
    = Ok ("Unable to fetch forecast: " ++ field kv "message" "Unknown error").
Proof.
  intros Hkey Hne Hdata Hcod.
  rewrite (get_forecast_fetched _ _ _ api_key Hkey Hne). cbn [fst]. rewrite Hdata.
  apply (forecast_of_error kv (JInt 200) Hcod). reflexivity.
Qed.

End Properties.

(** * The claims on the reference runtime *)

(** C1, the claim as stated fails: a feature without 'properties', a period
    without 'dt', 'main' or 'weather', and an empty 'weather' list each
    make the tool raise. *)
Lemma C1_counterexample_malformed_bodies_raise :
  fst (get_alerts "CA" (serving None (JObj [("features", JArr [JObj []])])))
    = Raise KeyError /\
  fst (get_forecast 51.5 0
         (serving (Some "k")
            (JObj [("list", JArr [JObj [("main", JObj []); ("weather", JArr [])]])])))
    = Raise KeyError /\
  fst (get_forecast 51.5 0
         (serving (Some "k")
            (JObj [("list", JArr [JObj [("dt", JInt 0); ("weather", JArr [])]])])))
    = Raise KeyError /\
  fst (get_forecast 51.5 0
         (serving (Some "k")
            (JObj [("list",
                    JArr [JObj [("dt", JInt 0);
                                ("main", JObj [("temp", JInt 1); ("feels_like", JInt 1);
                                               ("humidity", JInt 1)])]])])))
    = Raise KeyError /\
  fst (get_forecast 51.5 0
         (serving (Some "k")
            (JObj [("list",
                    JArr [JObj [("dt", JInt 0);
                                ("main", JObj [("temp", JInt 1); ("feels_like", JInt 1);
                                               ("humidity", JInt 1)]);
                                ("weather", JArr [])]])])))
    = Raise IndexError.
Proof. repeat split; vm_compute; reflexivity. Qed.

(** A world with both servers well formed. *)
Lemma C1_witness :
  (exists s, fst (get_alerts "CA" (sample_world (Some "k"))) = Ok s) /\
  (exists s, fst (get_forecast 51.5 (-0.12) (sample_world (Some "k"))) = Ok s).
Proof.
  apply (C1_tools_return_on_expected_bodies "CA" 51.5 (-0.12) (sample_world (Some "k"))).
  - vm_compute. reflexivity.
  - intros api_key Hkey. injection Hkey as <-. vm_compute. reflexivity.
Defined.

(** C2, the claim as stated fails: at 11 degrees the tool answers "N",
    while rounding the quotient 0.98... gives bucket 1, which is "NNE". *)
Lemma C2_counterexample_eleven_degrees :
  wind_direction (JInt 11) = Ok "N" /\
  spec_bucket 11 = 1 /\
  nth (Z.to_nat (spec_bucket 11)) directions "" = "NNE".
Proof. repeat split; vm_compute; reflexivity. Qed.

(** A falsy float, a wind without a degree, and 349 degrees. *)
Lemma C2_witness :
  wind_direction (JFloat 0) = Ok "N/A" /\
  (wind_deg <- get (JObj [("speed", JInt 3)]) "deg" (JInt 0) ;; wind_direction wind_deg)
    = Ok "N/A" /\
  wind_direction (JInt 349) = Ok (nth (Z.to_nat (trunc_bucket 349)) directions "") /\
  0 <= trunc_bucket 349 < 16 /\
  directions = ["N"; "NNE"; "NE"; "ENE"; "E"; "ESE"; "SE"; "SSE";
                "S"; "SSW"; "SW"; "WSW"; "W"; "WNW"; "NW"; "NNW"].
Proof.
  apply (C2_direction_bucket_truncates (JFloat 0) [("speed", JInt 3)] 349).
  - reflexivity.
  - reflexivity.
  - discriminate.
  - lia.
Defined.

(** The four periods of C3 on the reference runtime, as text. *)
Lemma C3_witness :
  format_period (sample_period 1700000000 "light rain" [("speed", JFloat 4.5); ("deg", JInt 0)])
    = Ok (nl ++ "Tuesday, November 14 at 10:13 PM:" ++ nl
             ++ "Temperature: 11.5" ++ degree_C ++ " (feels like 10.25" ++ degree_C ++ ")" ++ nl
             ++ "Weather: Light Rain" ++ nl ++ "Humidity: 81%" ++ nl
             ++ "Wind: 4.5 m/s N/A" ++ nl) /\
  format_period (sample_period 1700021600 "light rain" [("speed", JFloat 4.5); ("deg", JInt 90)])
    = Ok (nl ++ "Wednesday, November 15 at 04:13 AM:" ++ nl
             ++ "Temperature: 11.5" ++ degree_C ++ " (feels like 10.25" ++ degree_C ++ ")" ++ nl
             ++ "Weather: Light Rain" ++ nl ++ "Humidity: 81%" ++ nl
             ++ "Wind: 4.5 m/s E" ++ nl) /\
  format_period (sample_period 1700000000 "light rain" [("deg", JInt 11)])
    = Ok (nl ++ "Tuesday, November 14 at 10:13 PM:" ++ nl
             ++ "Temperature: 11.5" ++ degree_C ++ " (feels like 10.25" ++ degree_C ++ ")" ++ nl
             ++ "Weather: Light Rain" ++ nl ++ "Humidity: 81%" ++ nl
             ++ "Wind: 0 m/s N" ++ nl) /\
  format_period (sample_period 1700000000 "light rain" [("deg", JInt 349)])
    = Ok (nl ++ "Tuesday, November 14 at 10:13 PM:" ++ nl
             ++ "Temperature: 11.5" ++ degree_C ++ " (feels like 10.25" ++ degree_C ++ ")" ++ nl
             ++ "Weather: Light Rain" ++ nl ++ "Humidity: 81%" ++ nl
             ++ "Wind: 0 m/s N" ++ nl).
Proof.
  split; [| split; [| split]].
  - refine (eq_trans
              (proj1 (C3_direction_examples _ _ (sample_reading 0) 0 "N/A" _ _ _ _)) _);
      [reflexivity | reflexivity | reflexivity | simpl; tauto | vm_compute; reflexivity].
  - refine (eq_trans
              (proj1 (C3_direction_examples _ _ (sample_reading 2) 90 "E" _ _ _ _)) _);
      [reflexivity | reflexivity | reflexivity | simpl; tauto | vm_compute; reflexivity].
  - refine (eq_trans
              (proj1 (C3_direction_examples
                        _ [("deg", JInt 11)]
                        {| r_dt := (1700000000, 0); r_temp := JFloat 11.5;
                           r_feels_like := JFloat 10.25; r_humidity := JInt 81;
                           r_weather_desc := "Light Rain";
                           r_wind_speed := JInt 0; r_wind_deg := JInt 11 |}
                        11 "N" _ _ _ _)) _);
      [reflexivity | reflexivity | reflexivity | simpl; tauto | vm_compute; reflexivity].
  - refine (eq_trans
              (proj1 (C3_direction_examples
                        _ [("deg", JInt 349)]
                        {| r_dt := (1700000000, 0); r_temp := JFloat 11.5;
                           r_feels_like := JFloat 10.25; r_humidity := JInt 81;
                           r_weather_desc := "Light Rain";
                           r_wind_speed := JInt 0; r_wind_deg := JInt 349 |}
                        349 "N" _ _ _ _)) _);
      [reflexivity | reflexivity | reflexivity | simpl; tauto | vm_compute; reflexivity].
Defined.

(** A failed request, a null body, a body without features, an empty list. *)
Lemma C4_witness :
  fst (get_alerts "CA" (offline None)) = Ok "Unable to fetch alerts or no alerts found." /\
  fst (get_alerts "CA" (serving None JNull)) = Ok "Unable to fetch alerts or no alerts found." /\
  fst (get_alerts "CA" (serving None (JObj [("title", JStr "Alerts")])))
    = Ok "Unable to fetch alerts or no alerts found." /\
  fst (get_alerts "CA" (serving None (JObj [("features", JArr [])])))
    = Ok "No active alerts for this state.".
Proof.
  split; [| split; [| split]].
  - apply (proj1 (C4_alerts_fixed_messages "CA" (offline None))).
    exists HTTPError. reflexivity.
  - apply (proj1 (proj2 (C4_alerts_fixed_messages "CA" (serving None JNull)))).
    reflexivity.
  - apply (proj1 (proj2 (proj2 (C4_alerts_fixed_messages "CA" _))) [("title", JStr "Alerts")]);
      reflexivity.
  - apply (proj2 (proj2 (proj2 (C4_alerts_fixed_messages "CA" _))) [("features", JArr [])]);
      reflexivity.
Defined.

(** Two features, the second with no property at all. *)
Lemma C5_witness :
  fst (get_alerts "CA" (sample_world None))
    = Ok (String.concat (nl ++ "---" ++ nl)
            [alert_block [("event", JStr "Flood Warning"); ("severity", JStr "Severe")];
             alert_block []]) /\
  alert_block []
    = nl ++ "Event: Unknown" ++ nl ++ "Area: Unknown" ++ nl ++ "Severity: Unknown" ++ nl
         ++ "Description: No description available" ++ nl
         ++ "Instructions: No specific instructions provided" ++ nl.
Proof.
  split; [| reflexivity].
  apply (C5_alert_blocks "CA" (sample_world None)
           [("features",
             JArr [JObj [("properties",
                          JObj [("event", JStr "Flood Warning"); ("severity", JStr "Severe")])];
                   JObj [("properties", JObj [])]])]
           [JObj [("properties",
                   JObj [("event", JStr "Flood Warning"); ("severity", JStr "Severe")])];
            JObj [("properties", JObj [])]]
           [[("event", JStr "Flood Warning"); ("severity", JStr "Severe")]; []]).
  - reflexivity.
  - reflexivity.
  - simpl. lia.
  - repeat constructor.
Defined.

(** No key: the world, with no request sent, is returned as it was. *)
Lemma C6_witness :
  get_forecast 51.5 (-0.12) (sample_world None)
    = (Ok "Error: OPENWEATHER_API_KEY not found in .env file. Please add it to your .env file.",
       sample_world None) /\
  sent (snd (get_forecast 51.5 (-0.12) (sample_world None))) = [].
Proof.
  apply (C6_no_key_no_request 51.5 (-0.12) (sample_world None)). reflexivity.
Defined.

(** The body of the specification: cod 404, city not found. *)
Lemma C7_witness :
  fst (get_forecast 0 0
         (serving (Some "k") (JObj [("cod", JStr "404"); ("message", JStr "city not found")])))
    = Ok "Unable to fetch forecast: city not found".
Proof.
  apply (C7_error_status 0 0 _ "k" [("cod", JStr "404"); ("message", JStr "city not found")] "404");
    solve [reflexivity | discriminate].
Defined.

(** C8, the claim as stated fails: the empty object has no 'list' key,
    and the tool reports a failed fetch, not the absence of forecast data. *)
Lemma C8_counterexample_empty_object :
  dict_get "list" [] = None /\
  fst (get_forecast 51.5 (-0.12) (serving (Some "k") (JObj [])))
    = Ok "Unable to fetch forecast data for this location.".
Proof. split; reflexivity. Qed.

(** Eight periods: the first five are rendered. *)
Lemma C8_witness :
  exists blocks,
    Forall2 (fun period block => format_period period = Ok block)
            (firstn 5 sample_periods) blocks /\
    List.length blocks = 5%nat /\
    fst (get_forecast 51.5 (-0.12) (sample_world (Some "k")))
      = Ok (String.concat nl ("Forecast for London, GB" :: rule50 :: blocks)).
Proof.
  refine (proj2 (C8_first_five_periods 51.5 (-0.12) (sample_world (Some "k")) "k"
                   sample_body _ _ _ _ _) sample_periods _ _ _);
    solve [reflexivity | discriminate | simpl; lia | vm_compute; reflexivity].
Defined.

(** An integer cod of 200 hides a list of periods. *)
Lemma C10_witness :
  fst (get_forecast 51.5 (-0.12)
         (serving (Some "k") (JObj [("cod", JInt 200); ("list", JArr [sample_period 0 "rain" []])])))
    = Ok "Unable to fetch forecast: Unknown error".
Proof.
  apply (C10_integer_cod_is_an_error 51.5 (-0.12) _ "k"
           [("cod", JInt 200); ("list", JArr [sample_period 0 "rain" []])]);
    solve [reflexivity | discriminate].
Defined.

(** ** The sample world, run *)

Example sample_alerts_text :
  fst (get_alerts "CA" (sample_world None)) = Ok "
Event: Flood Warning
Area: Unknown
Severity: Severe
Description: No description available
Instructions: No specific instructions provided

---

Event: Unknown
Area: Unknown
Severity: Unknown
Description: No description available
Instructions: No specific instructions provided
".
Proof. vm_compute. reflexivity. Qed.

Example sample_alerts_request :
  sent (snd (get_alerts "CA" (sample_world None)))
    = [{| req_url := "https://api.weather.gov/alerts/active/area/CA";
          req_headers := [("User-Agent", "weather-app/1.0");
                          ("Accept", "application/geo+json")] |}].
Proof. reflexivity. Qed.

Example sample_forecast_request :
  sent (snd (get_forecast 51.5 (-0.12) (sample_world (Some "k"))))
    = [{| req_url := "https://api.openweathermap.org/data/2.5/forecast?lat=51.5&lon=-0.12&appid=k&units=metric";
          req_headers := [] |}].
Proof. vm_compute. reflexivity. Qed.

Example sample_forecast_text :
  fst (get_forecast 51.5 (-0.12) (sample_world (Some "k")))
    = Ok (String.concat nl
            ["Forecast for London, GB";
             "==================================================";
             nl ++ "Tuesday, November 14 at 10:13 PM:" ++ nl
                ++ "Temperature: 11.5" ++ degree_C ++ " (feels like 10.25" ++ degree_C ++ ")" ++ nl
                ++ "Weather: Light Rain" ++ nl ++ "Humidity: 81%" ++ nl
                ++ "Wind: 4.5 m/s N/A" ++ nl;
             nl ++ "Wednesday, November 15 at 01:13 AM:" ++ nl
                ++ "Temperature: 11.5" ++ degree_C ++ " (feels like 10.25" ++ degree_C ++ ")" ++ nl
                ++ "Weather: Light Rain" ++ nl ++ "Humidity: 81%" ++ nl
                ++ "Wind: 4.5 m/s NE" ++ nl;
             nl ++ "Wednesday, November 15 at 04:13 AM:" ++ nl
                ++ "Temperature: 11.5" ++ degree_C ++ " (feels like 10.25" ++ degree_C ++ ")" ++ nl
                ++ "Weather: Light Rain" ++ nl ++ "Humidity: 81%" ++ nl
                ++ "Wind: 4.5 m/s E" ++ nl;
             nl ++ "Wednesday, November 15 at 07:13 AM:" ++ nl
                ++ "Temperature: 11.5" ++ degree_C ++ " (feels like 10.25" ++ degree_C ++ ")" ++ nl
                ++ "Weather: Light Rain" ++ nl ++ "Humidity: 81%" ++ nl
                ++ "Wind: 4.5 m/s SE" ++ nl;
             nl ++ "Wednesday, November 15 at 10:13 AM:" ++ nl
                ++ "Temperature: 11.5" ++ degree_C ++ " (feels like 10.25" ++ degree_C ++ ")" ++ nl
                ++ "Weather: Light Rain" ++ nl ++ "Humidity: 81%" ++ nl
                ++ "Wind: 4.5 m/s S" ++ nl]).
Proof. vm_compute. reflexivity. Qed.

(** * Further properties of the tools *)

Section Extras.
Context {rt : PyRuntime}.

Lemma is_ok_mapM {A B : Type} (f : A -> result B) (l : list A) :
  is_ok (mapM f l) = forallb (fun a => is_ok (f a)) l.
Proof.
  induction l as [| a l IH]; simpl; [reflexivity |].
  destruct (f a) as [b |]; simpl; [| reflexivity].
  rewrite <- IH. destruct (mapM f l); reflexivity.
Qed.

Lemma mapM_first_error {A B : Type} (f : A -> result B) (good rest : list A) (bad : A) (e : exn) :
  forallb (fun a => is_ok (f a)) good = true ->
  f bad = Raise e ->
  mapM f (good ++ bad :: rest) = Raise e.
Proof.
  intros Hgood Hbad. induction good as [| a good IH]; simpl.
  - rewrite Hbad. reflexivity.
  - simpl in Hgood. apply andb_true_iff in Hgood as [Ha Hgood].
    destruct (f a) as [b |]; [| discriminate]. simpl. rewrite (IH Hgood). reflexivity.
Qed.

Lemma feature_ok_exact (feature : json) :
  is_ok (format_alert feature) = feature_ok feature.
Proof.
  unfold feature_ok, format_alert.
  destruct (subscript feature "properties") as [[| | | | | | props] |]; reflexivity.
Qed.

Lemma deg_ok_exact (deg : json) :
  is_ok (wind_direction deg) = deg_ok deg.
Proof.
  unfold deg_ok, wind_direction. destruct (truthy deg); simpl; [| reflexivity].
  destruct (add_float deg 11.25%float) as [x |]; simpl; [| reflexivity].
  unfold int_of_float. destruct (Prim2SF (x / 22.5)%float); reflexivity.
Qed.

Lemma period_ok_exact (period : json) :
  is_ok (format_period period) = period_ok period.
Proof.
  unfold format_period, read_period, period_ok.
  destruct period as [| | | | | | kv]; try reflexivity.
  cbn [subscript get bind].
  destruct (dict_get "dt" kv) as [ts |]; cbn [bind]; [| reflexivity].
  destruct (dict_get "main" kv) as [main |]; cbn [bind].
  2:{ destruct (fromtimestamp ts); reflexivity. }
  destruct (dict_get "weather" kv) as [weather |]; cbn [bind].
  2:{ destruct (fromtimestamp ts); cbn [bind]; [| destruct main; reflexivity].
      destruct main as [| | | | | | m]; try reflexivity. cbn [subscript].
      destruct (dict_get "temp" m); cbn [bind]; [| reflexivity].
      destruct (dict_get "feels_like" m); cbn [bind]; [| reflexivity].
      destruct (dict_get "humidity" m); reflexivity. }
  destruct (fromtimestamp ts) as [dt |]; cbn [bind is_ok andb].
  2:{ destruct main as [| | | | | | m]; try reflexivity.
      destruct weather as [| | | | | [| [| | | | | | w0] ?] |]; reflexivity. }
  destruct main as [| | | | | | m]; try reflexivity. cbn [subscript].
  unfold has_key.
  destruct (dict_get "temp" m); cbn [bind andb].
  2:{ destruct weather as [| | | | | [| [| | | | | | w0] ?] |]; reflexivity. }
  destruct (dict_get "feels_like" m); cbn [bind andb].
  2:{ destruct weather as [| | | | | [| [| | | | | | w0] ?] |]; reflexivity. }
  destruct (dict_get "humidity" m); cbn [bind andb].
  2:{ destruct weather as [| | | | | [| [| | | | | | w0] ?] |]; reflexivity. }
  destruct weather as [| | | | s | [| [| | | | | | w0] ?] |]; try reflexivity.
  { destruct s; reflexivity. }
  cbn [subscript0 subscript bind].
  destruct (dict_get "description" w0) as [[| | | | desc | |] |]; try reflexivity.
  cbn [title bind andb].
  cbn [get bind].
  destruct (dict_get "wind" kv) as [[| | | | | | wkv] |]; try reflexivity.
  cbn [get bind r_wind_deg].
  destruct (dict_get "deg" wkv) as [deg |]; [| reflexivity].
  rewrite <- deg_ok_exact. destruct (wind_direction deg); reflexivity.
Qed.


Lemma forallb_ext_eq {A : Type} (p q : A -> bool) (l : list A) :
  (forall a, p a = q a) -> forallb p l = forallb q l.
Proof.
  intros H. induction l as [| a l IH]; simpl; [reflexivity |]. rewrite H, IH. reflexivity.
Qed.

Lemma alerts_of_returns (data : json) :
  is_ok (alerts_of data) = alerts_returns data.
Proof.
  unfold alerts_of, alerts_returns.
  destruct (truthy data) eqn:Htruthy; cbn [negb orb]; [| reflexivity].
  destruct data as [| b | n | f | s | l | kv]; try reflexivity.
  - cbn [contains bind]. destruct (String.index 0 "features" s); reflexivity.
  - cbn [contains bind]. destruct (existsb (fun x => eq_str x "features") l); reflexivity.
  - cbn [contains subscript bind].
    destruct (dict_get "features" kv) as [features |]; [| reflexivity].
    cbn [negb bind]. unfold features_render.
    destruct (truthy features) eqn:Hf; cbn [negb orb]; [| reflexivity].
    destruct features as [| b | n | f | s | l | kv']; cbn [iterate bind];
      try reflexivity.
    + destruct s as [| c s']; [discriminate |]. reflexivity.
    + rewrite <- (forallb_ext_eq _ _ l feature_ok_exact), <- is_ok_mapM.
      destruct (mapM format_alert l); reflexivity.
    + destruct kv' as [| item kv'']; [discriminate |]. reflexivity.
Qed.

Lemma forecast_of_returns (data : json) :
  is_ok (forecast_of data) = forecast_returns data.
Proof.
  unfold forecast_returns.
  destruct (truthy data) eqn:Htruthy; cbn [negb orb].
  2:{ unfold forecast_of. rewrite Htruthy. reflexivity. }
  destruct data as [| b | n | f | s | l | kv].
  1-4: unfold forecast_of; rewrite Htruthy; reflexivity.
  - unfold forecast_of. rewrite Htruthy. cbn [negb contains bind].
    destruct (String.index 0 "cod" s); reflexivity.
  - unfold forecast_of. rewrite Htruthy. cbn [negb contains bind].
    destruct (existsb (fun x => eq_str x "cod") l); reflexivity.
  - assert (Hkv : kv <> []) by (intros ->; discriminate).
    destruct (passes_status kv) eqn:Hstatus; cbn [negb orb].
    + destruct (city_ok kv) eqn:Hcity; cbn [andb].
      * rewrite (forecast_of_periods kv Hkv Hstatus Hcity). cbv zeta.
        destruct (dict_get "list" kv) as [periods |]; [| reflexivity].
        unfold list_renders.
        destruct (truthy periods) eqn:Hp; cbn [negb orb]; [| reflexivity].
        destruct periods as [| b | n | f | s | l | kv']; cbn [slice5 iterate bind];
          try reflexivity.
        -- destruct s as [| c s']; [discriminate |]. reflexivity.
        -- rewrite <- (forallb_ext_eq _ _ _ period_ok_exact), <- is_ok_mapM.
           destruct (mapM format_period (firstn 5 l)); reflexivity.
      * unfold forecast_of. rewrite Htruthy. cbn [negb contains bind subscript].
        unfold passes_status in Hstatus. unfold city_ok in Hcity.
        destruct (dict_get "cod" kv) as [cod |]; cbn [bind].
        -- rewrite Hstatus. cbn [negb get bind].
           destruct (dict_get "city" kv) as [[| | | | | |] |]; try discriminate; reflexivity.
        -- cbn [get bind].
           destruct (dict_get "city" kv) as [[| | | | | |] |]; try discriminate; reflexivity.
    + unfold passes_status in Hstatus.
      destruct (dict_get "cod" kv) as [cod |] eqn:Hcod; [| discriminate].
      rewrite (forecast_of_error kv cod Hcod Hstatus). reflexivity.
Qed.


Lemma trunc_bucket_positive (n : Z) :
  0 <= n -> Z.quot (4 * n + 45) 90 = (4 * n + 45) / 90.
Proof. intros H. apply Z.quot_div_nonneg; lia. Qed.

Lemma trunc_bucket_negative (n : Z) :
  n <= -12 -> Z.quot (4 * n + 45) 90 = (4 * n + 45) / 90 + 1.
Proof. intros H. Z.to_euclidean_division_equations. lia. Qed.

(** X1: get_alerts returns a string exactly on the bodies of
    [alerts_returns], and raises on every other: a falsy body; an object
    whose 'features' is absent, falsy or a list of objects that each have an
    object under 'properties'; a list that does not hold the string
    "features"; a string that does not contain it. *)
Theorem X1_alerts_return_exactly (state : string) (w : world) :
  is_ok (fst (get_alerts state w)) = alerts_returns (alerts_data state w).
Proof. rewrite get_alerts_fetched. cbn [fst]. apply alerts_of_returns. Qed.

(** X2: one pass of the forecast loop renders its period exactly when
    the period is an object with a convertible 'dt', a 'main' object with
    'temp', 'feels_like' and 'humidity', a 'weather' list whose first entry
    is an object with a string 'description', and a 'wind' that is absent or
    an object whose 'deg' is absent, falsy or a number with a finite
    quotient; on every other period it raises. *)
Theorem X2_period_renders_exactly (period : json) :
  is_ok (format_period period) = period_ok period.
Proof. apply period_ok_exact. Qed.

(** X3: with a key configured, get_forecast returns a string exactly on
    the bodies of [forecast_returns]: the falsy ones, and the objects that
    report an error status or whose 'city' is absent or an object and whose
    'list' is absent, falsy or a list whose first five elements render. *)
Theorem X3_forecast_returns_exactly
    (latitude longitude : float) (w : world) (api_key : string) :
  env_api_key w = Some api_key -> api_key <> "" ->
  is_ok (fst (get_forecast latitude longitude w))
    = forecast_returns (forecast_data latitude longitude api_key w).
Proof.
  intros Hkey Hne. rewrite (get_forecast_fetched _ _ _ api_key Hkey Hne). cbn [fst].
  apply forecast_of_returns.
Qed.

(** X4: get_alerts gives no partial report: when a feature fails to
    render after well-formed ones, the tool raises that feature's exception,
    whatever features follow. *)
Theorem X4_alerts_first_error
    (state : string) (w : world) (kv : list (string * json))
    (good rest : list json) (bad : json) (e : exn) :
  alerts_data state w = JObj kv ->
  dict_get "features" kv = Some (JArr (good ++ bad :: rest)) ->
  forallb feature_ok good = true ->
  format_alert bad = Raise e ->
  fst (get_alerts state w) = Raise e.
Proof.
  intros Hdata Hf Hgood Hbad. rewrite get_alerts_fetched. cbn [fst]. rewrite Hdata.
  rewrite (alerts_of_list kv _ Hf); [| destruct good; discriminate].
  rewrite (mapM_first_error format_alert good rest bad e); [reflexivity | | exact Hbad].
  rewrite (forallb_ext_eq _ _ good feature_ok_exact). exact Hgood.
Qed.

(** X5: format_alert raises TypeError on a feature that is not an
    object, KeyError on an object without 'properties', and AttributeError
    when 'properties' is not an object. *)
Theorem X5_format_alert_failures (feature : json) :
  ((forall kv, feature <> JObj kv) -> format_alert feature = Raise TypeError) /\
  (forall kv, feature = JObj kv -> dict_get "properties" kv = None ->
     format_alert feature = Raise KeyError) /\
  (forall kv props, feature = JObj kv -> dict_get "properties" kv = Some props ->
     (forall items, props <> JObj items) ->
     format_alert feature = Raise AttributeError).
Proof.
  repeat split.
  - intros H. destruct feature as [| | | | | | kv]; try reflexivity.
    exfalso. apply (H kv). reflexivity.
  - intros kv -> H. unfold format_alert. cbn [subscript]. rewrite H. reflexivity.
  - intros kv props -> H Hprops. unfold format_alert. cbn [subscript]. rewrite H.
    cbn [bind]. destruct props as [| | | | | | items]; try reflexivity.
    exfalso. apply (Hprops items). reflexivity.
Qed.

(** X6: get_forecast gives no partial report: when one of the first
    five periods fails to render after well-formed ones, the tool raises
    that period's exception, whatever periods follow. *)
Theorem X6_forecast_first_error
    (latitude longitude : float) (w : world) (api_key : string)
    (kv : list (string * json)) (good rest : list json) (bad : json) (e : exn) :
  env_api_key w = Some api_key -> api_key <> "" ->
  forecast_data latitude longitude api_key w = JObj kv ->
  passes_status kv = true -> city_ok kv = true ->
  dict_get "list" kv = Some (JArr (good ++ bad :: rest)) ->
  (List.length good < 5)%nat ->
  forallb period_ok good = true ->
  format_period bad = Raise e ->
  fst (get_forecast latitude longitude w) = Raise e.
Proof.
  intros Hkey Hne Hdata Hstatus Hcity Hlist Hlen Hgood Hbad.
  rewrite (get_forecast_fetched _ _ _ api_key Hkey Hne). cbn [fst]. rewrite Hdata.
  rewrite (forecast_of_periods kv); [| intros ->; discriminate | assumption | assumption].
  cbv zeta. rewrite Hlist.
  assert (Htruthy : truthy (JArr (good ++ bad :: rest)) = true)
    by (destruct good; reflexivity).
  rewrite Htruthy. cbn [negb slice5 iterate bind].
  rewrite firstn_app.
  rewrite (firstn_all2 good) by lia.
  destruct (5 - List.length good)%nat as [| k] eqn:Hk; [lia |].
  cbn [firstn].
  rewrite (mapM_first_error format_period good (firstn k rest) bad e);
    [reflexivity | | exact Hbad].
  rewrite (forallb_ext_eq _ _ good period_ok_exact). exact Hgood.
Qed.

(** X7: for a non-empty 'list' of N periods get_forecast renders
    min(5, N) blocks, the first min(5, N) periods in order; the periods
    after the fifth are not read. *)
Theorem X7_at_most_five_blocks
    (latitude longitude : float) (w : world) (api_key : string)
    (kv : list (string * json)) (periods : list json) :
  env_api_key w = Some api_key -> api_key <> "" ->
  forecast_data latitude longitude api_key w = JObj kv ->
  passes_status kv = true -> city_ok kv = true ->
  dict_get "list" kv = Some (JArr periods) ->
  periods <> [] ->
  forallb period_ok (firstn 5 periods) = true ->
  exists blocks,
    Forall2 (fun period block => format_period period = Ok block)
            (firstn 5 periods) blocks /\
    List.length blocks = Nat.min 5 (List.length periods) /\
    fst (get_forecast latitude longitude w)
      = Ok (String.concat nl (header kv :: rule50 :: blocks)).
Proof.
  intros Hkey Hne Hdata Hstatus Hcity Hlist Hperiods Hok.
  rewrite (get_forecast_fetched _ _ _ api_key Hkey Hne). cbn [fst]. rewrite Hdata.
  rewrite (forecast_of_periods kv); [| intros ->; discriminate | assumption | assumption].
  cbv zeta. rewrite Hlist.
  destruct (mapM_total format_period (firstn 5 periods)) as [blocks Hblocks].
  { revert Hok. apply forallb_impl. apply period_ok_format. }
  exists blocks. pose proof (proj1 (mapM_Forall2 _ _ _) Hblocks) as HF.
  split; [exact HF |]. split.
  - rewrite <- (Forall2_length HF). apply length_firstn.
  - destruct periods as [| p0 ps]; [contradiction |].
    cbn [truthy negb slice5 iterate bind]. rewrite Hblocks. reflexivity.
Qed.

(** X11: a property that is present with the value null is rendered as
    "None": the placeholder stands in for a missing key only.  Here
    'instruction' is null. *)
Theorem X11_null_property_renders_None (feature : json) (props : list (string * json)) :
  subscript feature "properties" = Ok (JObj props) ->
  dict_get "instruction" props = Some JNull ->
  format_alert feature
    = Ok (nl ++ "Event: " ++ field props "event" "Unknown" ++ nl
             ++ "Area: " ++ field props "areaDesc" "Unknown" ++ nl
             ++ "Severity: " ++ field props "severity" "Unknown" ++ nl
             ++ "Description: " ++ field props "description" "No description available" ++ nl
             ++ "Instructions: None" ++ nl).
Proof.
  intros Hprops Hnull. rewrite (format_alert_props feature props Hprops).
  unfold alert_block. unfold field at 5. rewrite Hnull. reflexivity.
Qed.

(** X12: an API key that is configured but empty counts as missing:
    get_forecast returns the instructional string and sends no request. *)
Theorem X12_empty_key_no_request (latitude longitude : float) (w : world) :
  env_api_key w = Some "" ->
  get_forecast latitude longitude w
    = (Ok "Error: OPENWEATHER_API_KEY not found in .env file. Please add it to your .env file.",
       w).
Proof.
  intros Hkey. unfold get_forecast, get_openweather_api_key. rewrite Hkey. reflexivity.
Qed.

(** X13: a falsy body (null, false, 0, an empty string, list or
    object) is reported as a failed fetch by both tools. *)
Theorem X13_falsy_body_is_a_failed_fetch
    (state : string) (latitude longitude : float) (w : world) (api_key : string) :
  env_api_key w = Some api_key -> api_key <> "" ->
  truthy (alerts_data state w) = false ->
  truthy (forecast_data latitude longitude api_key w) = false ->
  fst (get_alerts state w) = Ok "Unable to fetch alerts or no alerts found." /\
  fst (get_forecast latitude longitude w)
    = Ok "Unable to fetch forecast data for this location.".
Proof.
  intros Hkey Hne Ha Hf. split.
  - rewrite get_alerts_fetched. cbn [fst]. unfold alerts_of. rewrite Ha. reflexivity.
  - rewrite (get_forecast_fetched _ _ _ api_key Hkey Hne). cbn [fst].
    unfold forecast_of. rewrite Hf. reflexivity.
Qed.

(** X14: a 'features' that is present but falsy (null, an empty
    string, ...) is reported as no active alerts, and a 'list' that is
    present but falsy as no forecast data. *)
Theorem X14_falsy_list_is_no_data
    (state : string) (latitude longitude : float) (w : world) (api_key : string)
    (akv fkv : list (string * json)) (features periods : json) :
  env_api_key w = Some api_key -> api_key <> "" ->
  alerts_data state w = JObj akv ->
  dict_get "features" akv = Some features -> truthy features = false ->
  forecast_data latitude longitude api_key w = JObj fkv ->
  passes_status fkv = true -> city_ok fkv = true ->
  dict_get "list" fkv = Some periods -> truthy periods = false ->
  fst (get_alerts state w) = Ok "No active alerts for this state." /\
  fst (get_forecast latitude longitude w) = Ok "No forecast data available.".
Proof.
  intros Hkey Hne Ha Hfeat Hfalsy Hf Hstatus Hcity Hlist Hpfalsy. split.
  - rewrite get_alerts_fetched. cbn [fst]. rewrite Ha. unfold alerts_of.
    destruct akv as [| item akv']; [discriminate |].
    cbn [truthy negb contains subscript bind]. rewrite Hfeat. cbn [negb bind].
    rewrite Hfalsy. reflexivity.
  - rewrite (get_forecast_fetched _ _ _ api_key Hkey Hne). cbn [fst]. rewrite Hf.
    rewrite (forecast_of_periods fkv); [| intros ->; discriminate | assumption | assumption].
    cbv zeta. rewrite Hlist, Hpfalsy. reflexivity.
Qed.

Lemma invoke_world (c : call) (w : world) :
  env_api_key (snd (invoke c w)) = env_api_key w /\
  http_get_json (snd (invoke c w)) = http_get_json w /\
  sent (snd (invoke c w)) = (requests_of (env_api_key w) c ++ sent w)%list.
Proof.
  destruct c as [state | latitude longitude]; cbn [invoke requests_of].
  - repeat split.
  - unfold get_forecast, get_openweather_api_key.
    destruct (env_api_key w) as [api_key |] eqn:Hkey.
    + destruct (String.eqb api_key ""); repeat split; cbn; assumption || reflexivity.
    + repeat split; cbn; assumption.
Qed.

(** X15: over any sequence of tool calls the configured key and the
    servers stay as they were, every call yields one result, and the log
    grows by exactly one request for each get_alerts call and each
    get_forecast call made with a non-empty key, in call order, and by none
    for a get_forecast call without one. *)
Theorem X15_session_log (calls : list call) (w : world) :
  env_api_key (snd (run calls w)) = env_api_key w /\
  http_get_json (snd (run calls w)) = http_get_json w /\
  sent (snd (run calls w))
    = (rev (flat_map (requests_of (env_api_key w)) calls) ++ sent w)%list /\
  List.length (fst (run calls w)) = List.length calls.
Proof.
  revert w. induction calls as [| c calls IH]; intros w.
  - repeat split.
  - cbn [run flat_map].
    destruct (invoke_world c w) as (Hkey & Hhttp & Hsent).
    destruct (invoke c w) as [r w1]. cbn [snd] in Hkey, Hhttp, Hsent.
    destruct (IH w1) as (Hkey' & Hhttp' & Hsent' & Hlen').
    destruct (run calls w1) as [rs w2]. cbn [fst snd List.length] in *.
    rewrite Hkey', Hhttp', Hsent', Hkey, Hhttp, Hsent, Hlen'.
    repeat split. rewrite rev_app_distr, <- app_assoc. f_equal. f_equal.
    destruct c as [state | latitude longitude]; cbn [requests_of]; [reflexivity |].
    destruct (env_api_key w) as [api_key |]; [| reflexivity].
    destruct (String.eqb api_key ""); reflexivity.
Qed.

(** X16: when the forecast request raises (network error, timeout,
    error status, invalid JSON), get_forecast returns "Unable to fetch
    forecast data for this location." after exactly one request: there is
    no retry. *)
Theorem X16_failed_forecast_request
    (latitude longitude : float) (w : world) (api_key : string) (e : exn) :
  env_api_key w = Some api_key -> api_key <> "" ->
  http_get_json w (sent w) (openweather_request (forecast_url latitude longitude api_key))
    = Raise e ->
  fst (get_forecast latitude longitude w)
    = Ok "Unable to fetch forecast data for this location." /\
  sent (snd (get_forecast latitude longitude w))
    = openweather_request (forecast_url latitude longitude api_key) :: sent w.
Proof.
  intros Hkey Hne Hraise. rewrite (get_forecast_fetched _ _ _ api_key Hkey Hne).
  cbn [fst snd]. split; [| reflexivity].
  unfold forecast_data, make_openweather_request, send. cbn [fst]. rewrite Hraise.
  reflexivity.
Qed.

Lemma read_period_no_wind (kv : list (string * json)) (r : reading) :
  dict_get "wind" kv = None ->
  read_period (JObj kv) = Ok r ->
  r_wind_speed r = JInt 0 /\ r_wind_deg r = JInt 0.
Proof.
  intros Hwind. unfold read_period. cbn [get]. rewrite Hwind. cbn [get dict_get].
  repeat (cbn [bind get dict_get];
          match goal with
          | |- bind ?x _ = Ok _ -> _ =>
              lazymatch x with
              | Ok _ => fail
              | _ => destruct x; [| discriminate]
              end
          end).
  cbn [bind]. intros H. injection H as <-. split; reflexivity.
Qed.

(** X17: a period without 'wind' renders the wind line "Wind: 0 m/s
    N/A". *)
Theorem X17_period_without_wind (kv : list (string * json)) :
  period_ok (JObj kv) = true ->
  dict_get "wind" kv = None ->
  exists head,
    format_period (JObj kv) = Ok (head ++ "Wind: 0 m/s N/A" ++ nl).
Proof.
  intros Hok Hwind. apply period_ok_format in Hok. unfold format_period in *.
  destruct (read_period (JObj kv)) as [r |] eqn:Hread; [| discriminate].
  destruct (read_period_no_wind kv r Hwind Hread) as [Hspeed Hdeg].
  cbn [bind]. rewrite Hdeg.
  exists (nl ++ strftime (r_dt r) "%A, %B %d at %I:%M %p" ++ ":" ++ nl
             ++ "Temperature: " ++ str (r_temp r) ++ degree_C
             ++ " (feels like " ++ str (r_feels_like r) ++ degree_C ++ ")" ++ nl
             ++ "Weather: " ++ r_weather_desc r ++ nl
             ++ "Humidity: " ++ str (r_humidity r) ++ "%" ++ nl).
  unfold forecast_text. rewrite Hspeed. repeat rewrite append_assoc. reflexivity.
Qed.

End Extras.

(** X8: for whole degrees from 1 to 3600 the direction reported is the
    compass point nearest to the degree: the point i * 22.5 it names is less
    than 11.25 degrees away. *)
Theorem X8_direction_is_nearest_point (n : Z) :
  1 <= n <= 3600 ->
  exists i,
    wind_direction (JInt n) = Ok (nth (Z.to_nat (i mod 16)) directions "") /\
    Z.abs (4 * n - 90 * i) < 45.
Proof.
  intros Hn. exists ((4 * n + 45) / 90). split.
  - rewrite bucket_agrees_sound by lia. unfold trunc_bucket.
    rewrite trunc_bucket_positive by lia. reflexivity.
  - Z.to_euclidean_division_equations. lia.
Qed.

(** X9: for whole degrees from 1 to 3240, a full turn more gives the
    same direction. *)
Theorem X9_direction_full_turn (n : Z) :
  1 <= n <= 3240 ->
  wind_direction (JInt (n + 360)) = wind_direction (JInt n).
Proof.
  intros Hn. rewrite !bucket_agrees_sound by lia. unfold trunc_bucket.
  rewrite !trunc_bucket_positive by lia.
  replace (4 * (n + 360) + 45) with (4 * n + 45 + 16 * 90) by lia.
  rewrite Z.div_add by lia.
  replace ((4 * n + 45) / 90 + 16) with ((4 * n + 45) / 90 + 1 * 16) by lia.
  rewrite Z_mod_plus_full. reflexivity.
Qed.

(** X10: for whole degrees from -3600 to -12 the truncation points one
    bucket clockwise of the nearest compass point: the nearest point has
    index floor((4 * degrees + 45) / 90), the tool reports the next one. *)
Theorem X10_negative_degrees_one_bucket_clockwise (n : Z) :
  -3600 <= n <= -12 ->
  wind_direction (JInt n)
    = Ok (nth (Z.to_nat (((4 * n + 45) / 90 + 1) mod 16)) directions "") /\
  Z.abs (4 * n - 90 * ((4 * n + 45) / 90)) < 45.
Proof.
  intros Hn. split.
  - rewrite bucket_agrees_sound by lia. unfold trunc_bucket.
    rewrite trunc_bucket_negative by lia. reflexivity.
  - Z.to_euclidean_division_equations. lia.
Qed.

(** The sample forecast. *)
Lemma X3_witness :
  is_ok (fst (get_forecast 51.5 (-0.12) (sample_world (Some "k"))))
    = forecast_returns (forecast_data 51.5 (-0.12) "k" (sample_world (Some "k"))).
Proof.
  apply (X3_forecast_returns_exactly 51.5 (-0.12) (sample_world (Some "k")) "k");
    [reflexivity | discriminate].
Defined.

(** A feature without properties between two good ones. *)
Lemma X4_witness :
  fst (get_alerts "CA"
         (serving None
            (JObj [("features",
                    JArr [JObj [("properties", JObj [("event", JStr "Flood Warning")])];
                          JObj [("id", JStr "x")];
                          JObj [("properties", JObj [])]])])))
    = Raise KeyError.
Proof.
  apply (X4_alerts_first_error "CA" _
           [("features",
             JArr [JObj [("properties", JObj [("event", JStr "Flood Warning")])];
                   JObj [("id", JStr "x")];
                   JObj [("properties", JObj [])]])]
           [JObj [("properties", JObj [("event", JStr "Flood Warning")])]]
           [JObj [("properties", JObj [])]]
           (JObj [("id", JStr "x")]) KeyError);
    reflexivity.
Defined.

(** A string, an object without properties, null properties. *)
Lemma X5_witness :
  format_alert (JStr "alert") = Raise TypeError /\
  format_alert (JObj [("id", JStr "x")]) = Raise KeyError /\
  format_alert (JObj [("properties", JNull)]) = Raise AttributeError.
Proof.
  split; [| split].
  - apply (proj1 (X5_format_alert_failures (JStr "alert"))). intros kv. discriminate.
  - apply (proj1 (proj2 (X5_format_alert_failures _)) [("id", JStr "x")]); reflexivity.
  - apply (proj2 (proj2 (X5_format_alert_failures _)) [("properties", JNull)] JNull);
      [reflexivity | reflexivity | intros items; discriminate].
Defined.

(** A period with a string timestamp after a good one. *)
Lemma X6_witness :
  fst (get_forecast 51.5 (-0.12)
         (serving (Some "k")
            (JObj [("cod", JStr "200");
                   ("list", JArr [sample_period 0 "rain" []; JObj [("dt", JStr "noon")];
                                  sample_period 0 "rain" []])])))
    = Raise TypeError.
Proof.
  apply (X6_forecast_first_error 51.5 (-0.12) _ "k"
           [("cod", JStr "200");
            ("list", JArr [sample_period 0 "rain" []; JObj [("dt", JStr "noon")];
                           sample_period 0 "rain" []])]
           [sample_period 0 "rain" []] [sample_period 0 "rain" []]
           (JObj [("dt", JStr "noon")]) TypeError);
    solve [reflexivity | discriminate | simpl; lia | vm_compute; reflexivity].
Defined.

(** Two periods give two blocks. *)
Lemma X7_witness :
  exists blocks,
    Forall2 (fun period block => format_period period = Ok block)
            (firstn 5 [sample_period 0 "rain" []; sample_period 10800 "snow" []]) blocks /\
    List.length blocks = Nat.min 5 2 /\
    fst (get_forecast 51.5 (-0.12)
           (serving (Some "k")
              (JObj [("list", JArr [sample_period 0 "rain" []; sample_period 10800 "snow" []])])))
      = Ok (String.concat nl
              (header [("list", JArr [sample_period 0 "rain" []; sample_period 10800 "snow" []])]
                 :: rule50 :: blocks)).
Proof.
  apply (X7_at_most_five_blocks 51.5 (-0.12) _ "k"
           [("list", JArr [sample_period 0 "rain" []; sample_period 10800 "snow" []])]
           [sample_period 0 "rain" []; sample_period 10800 "snow" []]);
    solve [reflexivity | discriminate | vm_compute; reflexivity].
Defined.

(** 349 degrees is nearest to the sixteenth point, north. *)
Lemma X8_witness :
  exists i,
    wind_direction (JInt 349) = Ok (nth (Z.to_nat (i mod 16)) directions "") /\
    Z.abs (4 * 349 - 90 * i) < 45.
Proof. apply (X8_direction_is_nearest_point 349). lia. Defined.

(** 450 degrees reads as 90. *)
Lemma X9_witness : wind_direction (JInt (90 + 360)) = wind_direction (JInt 90).
Proof. apply (X9_direction_full_turn 90). lia. Defined.

(** -20 degrees reads as north, not north-north-west. *)
Lemma X10_witness :
  wind_direction (JInt (-20))
    = Ok (nth (Z.to_nat (((4 * -20 + 45) / 90 + 1) mod 16)) directions "") /\
  Z.abs (4 * -20 - 90 * ((4 * -20 + 45) / 90)) < 45.
Proof. apply (X10_negative_degrees_one_bucket_clockwise (-20)). lia. Defined.

(** A heat advisory with null instructions. *)
Lemma X11_witness :
  format_alert (JObj [("properties", JObj [("event", JStr "Heat Advisory");
                                           ("instruction", JNull)])])
    = Ok (nl ++ "Event: Heat Advisory" ++ nl ++ "Area: Unknown" ++ nl
             ++ "Severity: Unknown" ++ nl
             ++ "Description: No description available" ++ nl
             ++ "Instructions: None" ++ nl).
Proof.
  apply (X11_null_property_renders_None
           (JObj [("properties", JObj [("event", JStr "Heat Advisory"); ("instruction", JNull)])])
           [("event", JStr "Heat Advisory"); ("instruction", JNull)]);
    reflexivity.
Defined.

(** An empty key. *)
Lemma X12_witness :
  get_forecast 51.5 (-0.12) (sample_world (Some ""))
    = (Ok "Error: OPENWEATHER_API_KEY not found in .env file. Please add it to your .env file.",
       sample_world (Some "")).
Proof. apply (X12_empty_key_no_request 51.5 (-0.12) (sample_world (Some ""))). reflexivity. Defined.

(** An empty object. *)
Lemma X13_witness :
  fst (get_alerts "CA" (serving (Some "k") (JObj [])))
    = Ok "Unable to fetch alerts or no alerts found." /\
  fst (get_forecast 51.5 (-0.12) (serving (Some "k") (JObj [])))
    = Ok "Unable to fetch forecast data for this location.".
Proof.
  apply (X13_falsy_body_is_a_failed_fetch "CA" 51.5 (-0.12) (serving (Some "k") (JObj [])) "k");
    solve [reflexivity | discriminate].
Defined.

(** Null features and a null list. *)
Lemma X14_witness :
  fst (get_alerts "CA" (serving (Some "k") (JObj [("features", JNull); ("list", JNull)])))
    = Ok "No active alerts for this state." /\
  fst (get_forecast 51.5 (-0.12)
         (serving (Some "k") (JObj [("features", JNull); ("list", JNull)])))
    = Ok "No forecast data available.".
Proof.
  apply (X14_falsy_list_is_no_data "CA" 51.5 (-0.12) _ "k"
           [("features", JNull); ("list", JNull)] [("features", JNull); ("list", JNull)]
           JNull JNull);
    solve [reflexivity | discriminate].
Defined.

(** Every request fails. *)
Lemma X16_witness :
  fst (get_forecast 51.5 (-0.12) (offline (Some "k")))
    = Ok "Unable to fetch forecast data for this location." /\
  sent (snd (get_forecast 51.5 (-0.12) (offline (Some "k"))))
    = [openweather_request (forecast_url 51.5 (-0.12) "k")].
Proof.
  apply (X16_failed_forecast_request 51.5 (-0.12) (offline (Some "k")) "k" HTTPError);
    solve [reflexivity | discriminate].
Defined.

(** A period with no wind at all. *)
Lemma X17_witness :
  exists head,
    format_period
      (JObj [("dt", JInt 0);
             ("main", JObj [("temp", JInt 3); ("feels_like", JInt 1); ("humidity", JInt 90)]);
             ("weather", JArr [JObj [("description", JStr "mist")]])])
      = Ok (head ++ "Wind: 0 m/s N/A" ++ nl).
Proof.
  apply (X17_period_without_wind
           [("dt", JInt 0);
            ("main", JObj [("temp", JInt 3); ("feels_like", JInt 1); ("humidity", JInt 90)]);
            ("weather", JArr [JObj [("description", JStr "mist")]])]);
    [vm_compute; reflexivity | reflexivity].
Defined.
